(** * A shallow embedding of the txboto request execution engine

    The modelled code:
    - [txboto/connection.py]: [AWSAuthConnection._mexe], the retrying
      execution loop, with its binary exponential backoff;
      [AWSAuthConnection.get_path], [build_base_http_request] and
      [make_request], and [AWSQueryConnection.make_request];
    - [txboto/base/__init__.py]: [HTTPRequest.authorize] and the transport
      exception classes of [AWSBaseConnection.__init__];
    - [txboto/dynamodb/layer1.py]: [Layer1._retry_handler],
      [Layer1._exponential_time], [Layer1._get_session_token],
      [Layer1.batch_get_item] and the table operations;
    - [txboto/pyami/config.py]: [Config.get], as it reads the backoff cap.

    The semantics is Python 3's: [configparser], [bytes.decode('utf-8')]
    and [int()] on a [str]. Delays are Python floats; they are read here
    as rationals [Q] ([random.random()] as a rational in [0,1), the
    literal [0.05] as [1#20]). Python ints are [Z]. *)

From Stdlib Require Import ZArith QArith Qpower List String Ascii Bool Lia.
Import ListNotations.

Set Warnings "-register-all".

Open Scope Z_scope.

(* ------------------------------------------------------------------ *)
(** ** Backoff curves *)

Module Backoff.

(** Python's [min(a, b)]: the first argument unless the second is
    strictly smaller. *)
Definition py_min (a b : Q) : Q := if Qle_bool a b then a else b.

(** [_mexe], connection.py lines 363-365:
    [next_sleep = min(random.random() * (2 ** i),
                      config.get('TxBoto', 'max_retry_delay', 60))].
    [r] is the value drawn by [random.random()], [max_retry_delay] the
    number [config.get] returned ([Config.max_retry_delay] below). *)
Definition next_sleep (r : Q) (i : Z) (max_retry_delay : Q) : Q :=
  py_min (r * Qpower (2 # 1) i) max_retry_delay.

(** [Layer1._exponential_time], layer1.py lines 184-190, with the
    number [txboto.config.get] returned as [max_retry_delay]. *)
Definition _exponential_time (max_retry_delay : Q) (i : Z) : Q :=
  if Z.eqb i 0 then 0
  else py_min ((1 # 20) * Qpower (2 # 1) i) max_retry_delay.

(** The default of [config.get('TxBoto', 'max_retry_delay', 60)]. *)
Definition default_max_retry_delay : Q := 60 # 1.

End Backoff.

(* ------------------------------------------------------------------ *)
(** ** Values and exceptions shared by the modules below *)

Module Py.

(** Decoded JSON values ([json.loads]). *)
Inductive json : Type :=
| JNull
| JBool (b : bool)
| JNum (z : Z)
| JString (s : string)
| JList (l : list json)
| JObject (kv : list (string * json)).

(** [dict.get(key)] on a decoded object: [None] when the key is absent. *)
Fixpoint assoc_get (k : string) (kv : list (string * json)) : option json :=
  match kv with
  | [] => None
  | (k', v) :: rest => if String.eqb k k' then Some v else assoc_get k rest
  end.

(** The transport exception classes that can leave [send_request] or
    [response.content()]. The first ten are the tuple
    [self.http_exceptions] of [AWSBaseConnection.__init__]
    (base/__init__.py lines 179-185); [SSLError], [CertificateError]
    and [VerifyError] are [self.http_unretryable_exceptions]
    ([OpenSSL.SSL.Error], [twisted.internet.error.CertificateError],
    [twisted.internet.error.VerifyError]), which derive from [Exception]
    and not from any class of the first tuple. *)
Inductive exn_class : Type :=
| ConnectError
| WebError
| ConnectionDone
| ConnectionLost
| ConnectionRefusedError
| ConnectingCancelledError
| TimeoutError
| ResponseFailed
| RequestTransmissionFailed
| ResponseNeverReceived
| SSLError
| CertificateError
| VerifyError
| OtherException.

(** [isinstance(e, self.http_exceptions)] *)
Definition in_http_exceptions (c : exn_class) : bool :=
  match c with
  | ConnectError | WebError | ConnectionDone | ConnectionLost
  | ConnectionRefusedError | ConnectingCancelledError | TimeoutError
  | ResponseFailed | RequestTransmissionFailed | ResponseNeverReceived => true
  | _ => false
  end.

(** [isinstance(e, self.http_unretryable_exceptions)] *)
Definition in_http_unretryable_exceptions (c : exn_class) : bool :=
  match c with
  | SSLError | CertificateError | VerifyError => true
  | _ => false
  end.

(** Exceptions that leave [_mexe] or the DynamoDB retry handler. *)
Inductive error : Type :=
| Transport (c : exn_class)
| AttributeError (attr : string)
| TypeError (what : string)
| BotoServerError (status : Z) (reason : string) (body : option string)
| BotoClientError (msg : string)
| DynamoDBThroughputExceededError (status : Z) (reason : string) (data : json)
| DynamoDBConditionalCheckFailedError (status : Z) (reason : string) (data : json)
| DynamoDBValidationError (status : Z) (reason : string) (data : json)
| DynamoDBResponseError (status : Z) (reason : string) (data : json)
| ValueError (what : string)
| UnicodeDecodeError (encoding : string).

(** Bytes are strings of [ascii] characters, one per byte. *)
Definition byte_in (lo hi : nat) (b : ascii) : bool :=
  Nat.leb lo (nat_of_ascii b) && Nat.leb (nat_of_ascii b) hi.

(** [bytes.decode('utf-8')] succeeds (strict errors): the well-formed
    UTF-8 sequences of RFC 3629, so no overlong form, no surrogate and
    nothing above U+10FFFF. *)
Fixpoint utf8_decodes (s : string) : bool :=
  match s with
  | EmptyString => true
  | String b rest =>
      let n := nat_of_ascii b in
      if Nat.ltb n 128 then utf8_decodes rest
      else if byte_in 194 223 b then
        match rest with
        | String b1 r1 => byte_in 128 191 b1 && utf8_decodes r1
        | EmptyString => false
        end
      else if byte_in 224 239 b then
        match rest with
        | String b1 (String b2 r2) =>
            byte_in (if Nat.eqb n 224 then 160 else 128)
                    (if Nat.eqb n 237 then 159 else 191) b1
            && byte_in 128 191 b2 && utf8_decodes r2
        | _ => false
        end
      else if byte_in 240 244 b then
        match rest with
        | String b1 (String b2 (String b3 r3)) =>
            byte_in (if Nat.eqb n 240 then 144 else 128)
                    (if Nat.eqb n 244 then 143 else 191) b1
            && byte_in 128 191 b2 && byte_in 128 191 b3 && utf8_decodes r3
        | _ => false
        end
      else false
  end.

(** The whitespace [int()] skips around a number in a [str] whose
    characters are the code points 0-255: the ASCII [\t \n \v \f \r]
    and space, and the non-ASCII whitespace U+0085 and U+00A0 (CPython
    maps only code points from 127 on through [Py_UNICODE_ISSPACE]). *)
Definition int_space (c : ascii) : bool :=
  byte_in 9 13 c || byte_in 32 32 c || byte_in 133 133 c || byte_in 160 160 c.

(** The decimal digits among the code points 0-255 are [0]-[9]. *)
Definition digit_value (c : ascii) : option Z :=
  if byte_in 48 57 c then Some (Z.of_nat (nat_of_ascii c - 48)) else None.

Fixpoint skip_int_space (s : string) : string :=
  match s with
  | String c rest => if int_space c then skip_int_space rest else s
  | EmptyString => s
  end.

(** The digit scan of [PyLong_FromString] for base 10: digits and
    underscores, two underscores in a row being an error; the value,
    the digit count, whether the last character was an underscore, and
    what follows. [prev_underscore] starts [true], so that a leading
    underscore is refused too. *)
Fixpoint scan_digits (s : string) (prev_underscore : bool) (acc : Z) (digits : nat)
    : option (Z * nat * bool * string) :=
  match s with
  | String c rest =>
      match digit_value c with
      | Some d => scan_digits rest false (acc * 10 + d) (S digits)
      | None =>
          if Ascii.eqb c "_"%char then
            if prev_underscore then None else scan_digits rest true acc digits
          else Some (acc, digits, prev_underscore, s)
      end
  | EmptyString => Some (acc, digits, prev_underscore, EmptyString)
  end.

(** [sys.int_info.default_max_str_digits]. *)
Definition max_str_digits : nat := 4300.

(** [int(text)] on a [str] whose characters are the code points 0-255
    ([None] when it raises [ValueError]): optional whitespace, an
    optional sign, decimal digits with single underscores between them,
    optional whitespace, and at most [max_str_digits] digits. *)
Definition py_int (text : string) : option Z :=
  let s := skip_int_space text in
  let '(sign, s) :=
    match s with
    | String c rest =>
        if Ascii.eqb c "+"%char then (1, rest)
        else if Ascii.eqb c "-"%char then (-1, rest)
        else (1, s)
    | EmptyString => (1, s)
    end in
  match scan_digits s true 0 0 with
  | None => None
  | Some (v, digits, trailing_underscore, rest) =>
      if trailing_underscore || Nat.eqb digits 0 || Nat.ltb max_str_digits digits
      then None
      else match skip_int_space rest with
           | EmptyString => Some (sign * v)
           | String _ _ => None
           end
  end.

End Py.

(* ------------------------------------------------------------------ *)
(** ** The configuration [txboto.config] *)

Module Config.
Import Py.
Local Open Scope string_scope.

(** What the configuration files hold for one option. *)
Inductive lookup : Type :=
| NoSection
| NoOption
| Found (raw : string).

(** A value [Config.get] returns: its default (a number for the options
    read here) or the string found. *)
Inductive value : Type :=
| VNum (q : Q)
| VStr (s : string).

(** How Python 3's [configparser.ConfigParser.get] fails. *)
Inductive get_exn : Type :=
| NoSectionError
| NoOptionError
| UnexpectedKeyword (k : string).

(** The parameters of the override [Config.get(self, section, name,
    default=None)], pyami/config.py line 150. *)
Definition get_params : list string := ["section"; "name"; "default"].

(** [ConfigParser.get(self, section, name)] called on a [Config]
    (Python 3's configparser, lines 781-816): [NoSectionError] or
    [NoOptionError] when the option is absent; a value found goes to
    [BasicInterpolation.before_get], whose [_interpolate_some] begins
    with [parser.get(section, option, raw=True, fallback=rest)]. [parser]
    is the [Config] itself, so that call lands in the override, which
    refuses the first keyword it does not declare. The value found is
    returned as read when both keywords are accepted ([%] references
    are not expanded here). *)
Definition configparser_get (l : lookup) : get_exn + string :=
  match l with
  | NoSection => inl NoSectionError
  | NoOption => inl NoOptionError
  | Found raw =>
      match find (fun k => negb (existsb (String.eqb k) get_params))
              ["raw"; "fallback"] with
      | Some k => inl (UnexpectedKeyword k)
      | None => inr raw
      end
  end.

(** [Config.get(section, name, default)], pyami/config.py lines
    150-155: [ConfigParser.get], or [default] when it raises anything. *)
Definition get (l : lookup) (default : value) : value :=
  match configparser_get l with
  | inl _ => default
  | inr v => VStr v
  end.

(** The cap of both backoff curves, [config.get('TxBoto',
    'max_retry_delay', 60)], as the second argument of [min]; on a
    string [min] raises [TypeError]. [l] is what the configuration holds
    for [TxBoto]/[max_retry_delay]. *)
Definition max_retry_delay (l : lookup) : error + Q :=
  match get l (VNum Backoff.default_max_retry_delay) with
  | VNum q => inr q
  | VStr _ => inl (TypeError "'<' not supported between instances of 'str' and 'float'")
  end.

End Config.

(* ------------------------------------------------------------------ *)
(** ** The retrying execution loop [AWSAuthConnection._mexe] *)

Module Mexe.
Import Py.

(** A response as [send_request] yields it: a treq response, with
    [code], the [location] header ([response.headers.getRawHeaders]),
    the body ([response.content()]), and the [reason] attribute that
    [_mexe] itself sets. treq responses proxy [IResponse], which has no
    [status] attribute: [resp_status] is [None] for them, and reading
    [response.status] then raises [AttributeError]. *)
Record response : Type := mkResponse {
  code : Z;
  location : option string;
  content : string;
  resp_status : option Z;
  reason : option string
}.

(** What one attempt's [send_request] / [response.content()] does. *)
Inductive attempt_result : Type :=
| Received (r : response)
| Raised (c : exn_class)
| PleaseRetry (r : response).

(** What a [retry_handler] call does: it raises, or returns its
    [status], [None] or a triple [(msg, i, next_sleep)]. *)
Inductive handler_result : Type :=
| HRaise (e : error)
| HStatus (s : option (string * Z * Q)).

Definition handler : Type := response -> string -> Z -> Q -> handler_result.

(** The surroundings of one [_mexe] call. [send k] and [random k] are the
    results of [send_request] and [random.random()] on the [k]-th pass
    through the loop body ([k] counting from 0); [max_retry_delay_entry]
    is what the configuration holds for [TxBoto]/[max_retry_delay];
    [num_retries_config] is
    [config.getint('TxBoto', 'num_retries', self.num_retries)], which is
    [self.num_retries] since [Config.getint] returns its default as
    [Config.get] does;
    [request_hook] is [self.request_hook] ([None] as constructed),
    given by whether [handle_request_data] raises, per its [error] flag;
    [code2status] is [txboto.httpcodes.code2status(code, 'N/A')]. *)
Record env : Type := mkEnv {
  send : nat -> attempt_result;
  random : nat -> Q;
  max_retry_delay_entry : Config.lookup;
  num_retries_config : Z;
  request_hook : option (bool -> option error);
  code2status : Z -> string
}.

(** The loop's local variables. [att] counts the passes through the
    loop body, i.e. the authorize-and-send attempts made so far. *)
Record st : Type := mkSt {
  att : nat;
  idx : Z;
  last_response : option response;
  last_body : option string;
  last_ex : option exn_class
}.

(** How [_mexe] ends: it returns [(response, response_body)], raises, or
    is still looping when the fuel runs out. Each carries the number of
    attempts made. *)
Inductive outcome : Type :=
| Returned (r : response) (body : string) (attempts : nat)
| Failed (e : error) (attempts : nat)
| Running (attempts : nat).

Definition attempts (o : outcome) : nat :=
  match o with
  | Returned _ _ n | Failed _ n | Running n => n
  end.

Definition is_running (o : outcome) : bool :=
  match o with Running _ => true | _ => false end.

Definition set_att (k : nat) (s : st) : st :=
  mkSt k (idx s) (last_response s) (last_body s) (last_ex s).
Definition set_idx (i : Z) (s : st) : st :=
  mkSt (att s) i (last_response s) (last_body s) (last_ex s).
Definition set_response (r : response) (s : st) : st :=
  mkSt (att s) (idx s) (Some r) (last_body s) (last_ex s).
Definition set_body (b : string) (s : st) : st :=
  mkSt (att s) (idx s) (last_response s) (Some b) (last_ex s).
Definition set_ex (c : exn_class) (s : st) : st :=
  mkSt (att s) (idx s) (last_response s) (last_body s) (Some c).

Definition retry_codes : list Z := [500; 502; 503; 504].

Definition exhausted_msg : string :=
  "Please report this exception as a TxBoto Issue!".

(** The code after the loop, when it ended without [break]
    (connection.py lines 424-438). *)
Definition after_loop (e : env) (s : st) : outcome :=
  let raise_exhausted :=
    match last_response s with
    | Some r =>
        match resp_status r with
        | None => Failed (AttributeError "status") (att s)
        | Some status =>
            match reason r with
            | None => Failed (AttributeError "reason") (att s)
            | Some rs => Failed (BotoServerError status rs (last_body s)) (att s)
            end
        end
    | None =>
        match last_ex s with
        | Some c => Failed (Transport c) (att s)
        | None => Failed (BotoClientError exhausted_msg) (att s)
        end
    end in
  match request_hook e with
  | Some h =>
      match h true with
      | Some err => Failed err (att s)
      | None => raise_exhausted
      end
  | None => raise_exhausted
  end.

(** An exception raised inside the [try] of the loop body, by
    [send_request], [response.content()], the retry handler or the
    request hook (connection.py lines 410-419): one of
    [self.http_exceptions] that is not unretryable is kept in [ex] and
    the loop goes on ([retry]); any other propagates, after [k]
    attempts. *)
Definition in_try (err : error) (k : nat) (retry : exn_class -> outcome) : outcome :=
  match err with
  | Transport c =>
      if in_http_exceptions c then
        if in_http_unretryable_exceptions c then Failed err k else retry c
      else Failed err k
  | _ => Failed err k
  end.

(** The handling of a response when no retry handler took it over
    (connection.py lines 388-409): a 500/502/503/504 goes round again,
    keeping its body, decoded as UTF-8 ([body.decode('utf-8')] raises
    [UnicodeDecodeError], which no [except] clause catches, on other
    bytes; [last_body] keeps the bytes); a code below 300, from 400 on,
    or without a [Location] header ends the loop with
    [(response, response_body)] once the request hook has run; a 3xx
    with [Location] goes round again. [next] is the next pass of the
    loop; [s1] the state after the attempt, [i] the index. *)
Definition default_handling (e : env) (r : response) (s1 : st) (i : Z)
    (next : st -> outcome) : outcome :=
  if existsb (Z.eqb (code r)) retry_codes then
    if utf8_decodes (content r) then next (set_idx (i + 1) (set_body (content r) s1))
    else Failed (UnicodeDecodeError "utf-8") (att s1)
  else if (code r <? 300) || (400 <=? code r)
          || match location r with Some _ => false | None => true end then
    match request_hook e with
    | Some h =>
        match h false with
        | Some err =>
            in_try err (att s1) (fun c => next (set_idx (i + 1) (set_ex c s1)))
        | None => Returned r (content r) (att s1)
        end
    | None => Returned r (content r) (att s1)
    end
  else
    next (set_idx (i + 1) s1).

(** The [while i <= num_retries] loop of [_mexe] (connection.py lines
    361-421), run on at most [fuel] passes. *)
Fixpoint loop (fuel : nat) (e : env) (num_retries : Z)
    (retry_handler : option handler) (s : st) : outcome :=
  match fuel with
  | O => Running (att s)
  | S fuel' =>
      if Z.leb (idx s) num_retries then
        (* [min(...)] is computed before the [try] *)
        match Config.max_retry_delay (max_retry_delay_entry e) with
        | inl err => Failed err (att s)
        | inr cap =>
        let next_sleep := Backoff.next_sleep (random e (att s)) (idx s) cap in
        let k := S (att s) in
        match send e (att s) with
        | Raised c =>
            in_try (Transport c) k (fun c =>
              loop fuel' e num_retries retry_handler
                (set_idx (idx s + 1) (set_ex c (set_att k s))))
        | PleaseRetry _ =>
            (* [except PleaseRetryException]: its [log.debug(... .foramt(e))] raises *)
            Failed (AttributeError "foramt") k
        | Received r0 =>
            let r := mkResponse (code r0) (location r0) (content r0)
                       (resp_status r0) (Some (code2status e (code r0))) in
            let s1 := set_response r (set_att k s) in
            let default :=
              default_handling e r s1 (idx s)
                (loop fuel' e num_retries retry_handler) in
            match retry_handler with
            | Some h =>
                match h r (content r) (idx s) next_sleep with
                | HRaise err =>
                    in_try err k (fun c =>
                      loop fuel' e num_retries retry_handler
                        (set_idx (idx s + 1) (set_ex c s1)))
                | HStatus (Some (_, i', _)) =>
                    loop fuel' e num_retries retry_handler (set_idx i' s1)
                | HStatus None => default
                end
            | None => default
            end
        end
        end
      else after_loop e s
  end.

(** The budget: [override_num_retries], or the configured one. *)
Definition resolve_num_retries (e : env) (override_num_retries : option Z) : Z :=
  match override_num_retries with
  | None => num_retries_config e
  | Some n => n
  end.

(** [_mexe(request, override_num_retries, retry_handler)]. *)
Definition _mexe (fuel : nat) (e : env) (override_num_retries : option Z)
    (retry_handler : option handler) : outcome :=
  loop fuel e (resolve_num_retries e override_num_retries) retry_handler
    (mkSt 0 0 None None None).

End Mexe.

(* ------------------------------------------------------------------ *)
(** ** CRC-32 ([binascii.crc32]) *)

Module Crc.

(** One byte into the reflected CRC-32 register (polynomial 0xEDB88320). *)
Fixpoint crc_shift (n : nat) (c : Z) : Z :=
  match n with
  | O => c
  | S n' =>
      crc_shift n'
        (if Z.testbit c 0 then Z.lxor (Z.shiftr c 1) 3988292384
         else Z.shiftr c 1)
  end.

Definition crc_byte (c : Z) (b : ascii) : Z :=
  crc_shift 8 (Z.lxor c (Z.of_nat (nat_of_ascii b))).

Fixpoint crc_bytes (c : Z) (s : string) : Z :=
  match s with
  | EmptyString => c
  | String b rest => crc_bytes (crc_byte c b) rest
  end.

(** [binascii.crc32(data)] of the bytes [data] (one [ascii] per byte). *)
Definition crc32 (data : string) : Z :=
  Z.lxor (crc_bytes 4294967295 data) 4294967295.

End Crc.

(* ------------------------------------------------------------------ *)
(** ** The DynamoDB connection [Layer1] and its retry handler *)

Module Dynamo.
Import Py.

(** Credentials as [txboto.provider.Provider] holds them. *)
Record provider : Type := mkProvider {
  provider_name : string;
  access_key : string;
  secret_key : string;
  security_token : option string
}.

(** The attributes of a [Layer1] connection that the handler reads or
    writes. [auth_provider] is the provider held by [self._auth_handler];
    [num_retries] is the attribute set by [AWSAuthConnection.__init__]. *)
Record layer1 : Type := mkLayer1 {
  throughput_exceeded_events : Z;
  conn_provider : provider;
  auth_provider : provider;
  _provider_type : string;
  _validate_checksums : bool;
  num_retries : Z
}.

(** The world the handler runs in: [json_loads] is
    [json.loads(to_str(response.read().decode('utf-8')))] on the bytes
    read ([None] when it raises: [UnicodeDecodeError] and
    [json.JSONDecodeError] are both [ValueError]s), [Provider] is
    [Provider(provider_type)] (credentials looked up afresh when it is
    called), and [max_retry_delay_entry] what the configuration holds
    for [TxBoto]/[max_retry_delay]. *)
Record denv : Type := mkDenv {
  json_loads : string -> option json;
  Provider : string -> provider;
  max_retry_delay_entry : Config.lookup
}.

(** The response as the handler reads it: [response.status],
    [response.reason], the bytes every [response.read()] returns, and
    [response.getheader('x-amz-crc32')], a [str] of code points 0-255
    or [None]. *)
Record dresponse : Type := mkDResponse {
  status : Z;
  dreason : string;
  read : string;
  crc_header : option string
}.

Definition ThruputError : string := "ProvisionedThroughputExceededException".
Definition SessionExpiredError : string :=
  "com.amazon.coral.service#ExpiredTokenException".
Definition ConditionalCheckFailedError : string :=
  "ConditionalCheckFailedException".
Definition ValidationError : string := "ValidationException".
Definition NumberRetries : Z := 10.

(** [Layer1.__init__] on top of [AWSAuthConnection.__init__]. *)
Definition new_layer1 (p : provider) (provider_type : string)
    (validate_checksums : bool) : layer1 :=
  mkLayer1 0 p p provider_type validate_checksums 6.

(** The messages the handler logs. *)
Inductive msg : Type :=
| MsgThroughput (i : Z)
| MsgRenewing
| MsgChecksum (actual expected : Z).

(** Python's substring test [needle in hay] on strings. *)
Fixpoint contains (needle hay : string) : bool :=
  String.prefix needle hay
  || match hay with
     | EmptyString => false
     | String _ rest => contains needle rest
     end.

(** [needle in v] for the value [v] of [data.get('__type')]. *)
Definition py_in (needle : string) (v : option json) : error + bool :=
  match v with
  | Some (JString t) => inr (contains needle t)
  | Some (JList l) =>
      inr (existsb (fun j => match j with
                             | JString t => String.eqb t needle
                             | _ => false
                             end) l)
  | Some (JObject kv) =>
      inr (existsb (fun p => String.eqb (fst p) needle) kv)
  | _ => inl (TypeError "argument is not iterable")
  end.

(** A state and error monad over the connection. *)
Definition M (A : Type) : Type := layer1 -> (error + A) * layer1.

Definition ret {A} (a : A) : M A := fun c => (inr a, c).
Definition raise {A} (e : error) : M A := fun c => (inl e, c).
Definition bind {A B} (m : M A) (f : A -> M B) : M B :=
  fun c => match m c with
           | (inl e, c') => (inl e, c')
           | (inr a, c') => f a c'
           end.
Definition lift {A} (x : error + A) : M A :=
  fun c => (x, c).
Definition modify (f : layer1 -> layer1) : M unit := fun c => (inr tt, f c).

Notation "x <- m ;; k" := (bind m (fun x => k))
  (at level 61, m at next level, right associativity).

Definition incr_events (c : layer1) : layer1 :=
  mkLayer1 (throughput_exceeded_events c + 1) (conn_provider c)
    (auth_provider c) (_provider_type c) (_validate_checksums c) (num_retries c).

(** Modelled from the spec: [self._auth_handler.update_provider] (the auth
    handlers of txboto/auth.py are not among the sources); it makes the
    handler sign with the re-derived provider credentials. *)
Definition update_provider (p : provider) (c : layer1) : layer1 :=
  mkLayer1 (throughput_exceeded_events c) (conn_provider c) p
    (_provider_type c) (_validate_checksums c) (num_retries c).

(** [Layer1._get_session_token], layer1.py lines 110-112. *)
Definition _get_session_token (d : denv) : M unit :=
  modify (fun c =>
    let p := Provider d (_provider_type c) in
    update_provider p
      (mkLayer1 (throughput_exceeded_events c) p (auth_provider c)
         (_provider_type c) (_validate_checksums c) (num_retries c))).

(** [Layer1._exponential_time(i)], layer1.py lines 184-190: 0 for
    [i == 0]; otherwise [min(0.05 * (2 ** i), txboto.config.get(...))],
    which raises when the configuration gives [min] a string. *)
Definition _exponential_time (d : denv) (i : Z) : error + Q :=
  if Z.eqb i 0 then inr 0%Q
  else match Config.max_retry_delay (max_retry_delay_entry d) with
       | inl err => inl err
       | inr cap => inr (Backoff._exponential_time cap i)
       end.

Definition get_num_retries : M Z := fun c => (inr (num_retries c), c).

(** The [if response.status == 400:] block of [_retry_handler]
    (layer1.py lines 143-171): the local [i] and the [status] it leaves
    for the checksum block, or the exception it raises. *)
Definition handle_400 (d : denv) (r : dresponse) (i : Z)
    : M (Z * option (msg * Z * Q)) :=
  if Z.eqb (status r) 400 then
    data <- lift (match json_loads d (read r) with
                  | Some v => inr v
                  | None => inl (ValueError "json.loads")
                  end) ;;
    ty <- lift (match data with
                | JObject kv => inr (assoc_get "__type" kv)
                | _ => inl (AttributeError "get")
                end) ;;
    thr <- lift (py_in ThruputError ty) ;;
    if thr then
      _ <- modify incr_events ;;
      let m := MsgThroughput i in
      next_sleep <- lift (_exponential_time d i) ;;
      let i' := i + 1 in
      if Z.eqb i' NumberRetries then
        raise (DynamoDBThroughputExceededError (status r) (dreason r) data)
      else ret (i', Some (m, i', next_sleep))
    else
    expired <- lift (py_in SessionExpiredError ty) ;;
    if expired then
      _ <- _get_session_token d ;;
      n <- get_num_retries ;;
      ret (i, Some (MsgRenewing, i + n - 1, 0%Q))
    else
    ccf <- lift (py_in ConditionalCheckFailedError ty) ;;
    if ccf then
      raise (DynamoDBConditionalCheckFailedError (status r) (dreason r) data)
    else
    ve <- lift (py_in ValidationError ty) ;;
    if ve then raise (DynamoDBValidationError (status r) (dreason r) data)
    else raise (DynamoDBResponseError (status r) (dreason r) data)
  else ret (i, None).

Definition get_validate_checksums : M bool :=
  fun c => (inr (_validate_checksums c), c).

(** The checksum block of [_retry_handler] (layer1.py lines 172-182),
    with the local [i] and [status] the 400 block left: the log argument
    [response.read().decode('utf-8')] is evaluated first, then the
    masked crc32 of the body, then [int(expected_crc32)]. *)
Definition check_crc32 (d : denv) (r : dresponse) (i : Z)
    (st0 : option (msg * Z * Q)) : M (option (msg * Z * Q)) :=
  v <- get_validate_checksums ;;
  match crc_header r with
  | Some header =>
      if v then
        _ <- (if utf8_decodes (read r) then ret tt
              else raise (UnicodeDecodeError "utf-8")) ;;
        let actual := Z.land (Crc.crc32 (read r)) 4294967295 in
        expected <- lift (match py_int header with
                          | Some n => inr n
                          | None => inl (ValueError "int")
                          end) ;;
        if Z.eqb actual expected then ret st0
        else
          next_sleep <- lift (_exponential_time d i) ;;
          ret (Some (MsgChecksum actual expected, i + 1, next_sleep))
      else ret st0
  | None => ret st0
  end.

(** [Layer1._retry_handler(response, i, next_sleep)]. *)
Definition _retry_handler (d : denv) (r : dresponse) (i : Z) (next_sleep : Q)
    : M (option (msg * Z * Q)) :=
  p <- handle_400 d r i ;;
  check_crc32 d r (fst p) (snd p).

End Dynamo.

(* ------------------------------------------------------------------ *)
(** ** [HTTPRequest.authorize] *)

Module Request.

(** A header value: text ([six.text_type]) or bytes. *)
Inductive hval : Type :=
| HText (s : string)
| HBytes (s : string).

(** An [HTTPRequest]: the dict [headers] as an association list in
    insertion order, and the [_headers_quoted] attribute ([False] until
    set, as [getattr(self, '_headers_quoted', False)] reads it). *)
Record request : Type := mkRequest {
  method : string;
  path : string;
  headers : list (string * hval);
  body : string;
  _headers_quoted : bool
}.

Definition set_headers (h : list (string * hval)) (r : request) : request :=
  mkRequest (method r) (path r) h (body r) (_headers_quoted r).

Definition set_quoted (r : request) : request :=
  mkRequest (method r) (path r) (headers r) (body r) true.

(** [d[k] = v]: an existing key keeps its place. *)
Fixpoint dict_set (k : string) (v : hval) (d : list (string * hval))
    : list (string * hval) :=
  match d with
  | [] => [(k, v)]
  | (k', v') :: rest =>
      if String.eqb k k' then (k, v) :: rest else (k', v') :: dict_set k v rest
  end.

Fixpoint dict_get (k : string) (d : list (string * hval)) : option hval :=
  match d with
  | [] => None
  | (k', v) :: rest => if String.eqb k k' then Some v else dict_get k rest
  end.

Fixpoint str_existsb (f : ascii -> bool) (s : string) : bool :=
  match s with
  | EmptyString => false
  | String c rest => f c || str_existsb f rest
  end.

Definition is_digit (c : ascii) : bool :=
  let n := nat_of_ascii c in (Nat.leb 48 n && Nat.leb n 57)%bool.
Definition is_alpha (c : ascii) : bool :=
  let n := nat_of_ascii c in
  (Nat.leb 65 n && Nat.leb n 90 || Nat.leb 97 n && Nat.leb n 122)%bool.

(** The characters [urllib.parse.quote] never encodes. *)
Definition always_safe (c : ascii) : bool :=
  is_alpha c || is_digit c || str_existsb (Ascii.eqb c) "_.-~".

(** The [safe] argument of [authorize]: the ASCII punctuation
    characters except [-], [.], [_] and [~] (which are always safe);
    character 34, the double quote, is written by its code. *)
Definition safe_chars : string :=
  String.String "!" (String.String (ascii_of_nat 34)
    "#$%&'()*+,/:;<=>?@[\]^`{|}~").

Definition hex_digit (n : nat) : ascii :=
  if Nat.ltb n 10 then ascii_of_nat (48 + n) else ascii_of_nat (55 + n).

(** [quote(val.encode('utf-8'), safe)], one [ascii] per byte. *)
Fixpoint quote (s : string) : string :=
  match s with
  | EmptyString => EmptyString
  | String c rest =>
      if always_safe c || str_existsb (Ascii.eqb c) safe_chars then
        String c (quote rest)
      else
        let n := nat_of_ascii c in
        String "%" (String (hex_digit (n / 16))
                      (String (hex_digit (n mod 16)) (quote rest)))
  end.

(** [str(n)] for a length. *)
Fixpoint digits (fuel n : nat) (acc : string) : string :=
  match fuel with
  | O => acc
  | S fuel' =>
      let acc' := String (ascii_of_nat (48 + n mod 10)) acc in
      if Nat.ltb n 10 then acc' else digits fuel' (n / 10) acc'
  end.
Definition str_nat (n : nat) : string := digits (S n) n EmptyString.

(** The quoting step of [authorize] (base/__init__.py lines 126-132). *)
Definition quote_headers (r : request) : request :=
  if _headers_quoted r then r
  else
    set_quoted
      (set_headers
         (map (fun kv => match snd kv with
                         | HText v => (fst kv, HText (quote v))
                         | HBytes _ => kv
                         end) (headers r)) r).

(** [self.headers['Transfer-Encoding'] == 'chunked'] for a present key. *)
Definition is_chunked (v : option hval) : bool :=
  match v with
  | Some (HText s) => String.eqb s "chunked"
  | _ => false
  end.

(** The rest of [authorize] (lines 134-143): [User-Agent],
    [connection._auth_handler.add_auth(self)] (given as the headers it
    leaves), and [Content-Length]. *)
Definition authorize_rest (user_agent : string)
    (add_auth : request -> list (string * hval)) (r : request) : request :=
  let r1 := set_headers (dict_set "User-Agent" (HText user_agent) (headers r)) r in
  let r2 := set_headers (add_auth r1) r1 in
  match dict_get "Content-Length" (headers r2) with
  | Some _ => r2
  | None =>
      if is_chunked (dict_get "Transfer-Encoding" (headers r2)) then r2
      else set_headers (dict_set "Content-Length"
                          (HText (str_nat (String.length (body r2))))
                          (headers r2)) r2
  end.

(** [HTTPRequest.authorize(connection)]. *)
Definition authorize (user_agent : string)
    (add_auth : request -> list (string * hval)) (r : request) : request :=
  authorize_rest user_agent add_auth (quote_headers r).

End Request.

(* ------------------------------------------------------------------ *)
(** ** [Layer1.batch_get_item] *)

Module Layer1Ops.
Import Py.

(** A [Layer1] method as a program over [make_request]: it finishes with
    a value, raises, or calls [self.make_request(action, json.dumps(data),
    object_hook=...)] and continues with the decoded result. *)
Inductive prog : Type :=
| Ret (v : json)
| Raise (e : error)
| MakeRequest (action : string) (data : json)
    (object_hook : option (json -> json)) (k : json -> prog).

(** Python truthiness of the [request_items] argument: [None] or a dict. *)
Definition truthy (request_items : option (list (string * json))) : bool :=
  match request_items with
  | None | Some [] => false
  | Some _ => true
  end.

(** [Layer1.batch_get_item], layer1.py lines 338-355. *)
Definition batch_get_item (request_items : option (list (string * json)))
    (object_hook : option (json -> json)) : prog :=
  if negb (truthy request_items) then Ret (JObject [])
  else
    let data := JObject [("RequestItems"%string,
                          match request_items with
                          | Some kv => JObject kv
                          | None => JNull
                          end)] in
    MakeRequest "BatchGetItem" data object_hook (fun result => Ret result).

(** The number of [make_request] calls a program makes when every call
    returns [answer]. *)
Fixpoint requests_made (fuel : nat) (answer : json) (p : prog) : nat :=
  match fuel, p with
  | O, _ => O
  | _, Ret _ | _, Raise _ => O
  | S fuel', MakeRequest _ _ _ k => S (requests_made fuel' answer (k answer))
  end.

End Layer1Ops.

(* ------------------------------------------------------------------ *)
(** ** Retry handlers and concrete inputs of [_mexe] *)

Module MexeInputs.
Import Py Mexe.

(** A retry handler whose returned index always exceeds the one it was
    given. *)
Definition advancing (h : handler) : Prop :=
  forall r b i ns m i' ns',
    h r b i ns = HStatus (Some (m, i', ns')) -> (i < i')%Z.

Definition handler_ok (retry_handler : option handler) : Prop :=
  match retry_handler with
  | None => True
  | Some h => advancing h
  end.

(** A treq response with the given code and body. *)
Definition treq_response (c : Z) (b : string) : response :=
  mkResponse c None b None None.

Definition code2status_table (c : Z) : string :=
  if Z.eqb c 200 then "OK"
  else if Z.eqb c 503 then "Service Unavailable"
  else "N/A".

(** Every attempt yields [a]; [random.random()] draws 1/2; no [TxBoto]
    section in the configuration. *)
Definition const_env (a : attempt_result) : env :=
  mkEnv (fun _ => a) (fun _ => 1 # 2) Config.NoSection 6 None
    code2status_table.

(** A handler that hands the index back unchanged. *)
Definition same_index_handler : handler :=
  fun _ _ i ns => HStatus (Some ("retrying"%string, i, ns)).

End MexeInputs.

(* ------------------------------------------------------------------ *)
(** ** Concrete inputs of the DynamoDB retry handler *)

Module DynamoInputs.
Import Py Dynamo.

Definition old_provider : provider :=
  mkProvider "aws" "AKIDOLD" "old-secret" (Some "old-token"%string).

(** [Provider(name)] finding fresh credentials. *)
Definition fresh_provider (name : string) : provider :=
  mkProvider name "AKIDNEW" "new-secret" (Some "new-token"%string).

(** A fresh [Layer1] connection validating checksums. *)
Definition conn0 : layer1 := new_layer1 old_provider "aws" true.

(** An error body [{"__type": t}]. *)
Definition type_body (t : string) : json := JObject [("__type"%string, JString t)].

(** [json.loads] decoding every body to [data]; no [TxBoto] section in
    the configuration. *)
Definition denv_of (data : json) : denv :=
  mkDenv (fun _ => Some data) fresh_provider Config.NoSection.

Definition resp (status : Z) (crc : option string) : dresponse :=
  mkDResponse status "Bad Request" "{}" crc.




End DynamoInputs.

(* ------------------------------------------------------------------ *)
(** ** Responses through [_mexe] without a retry handler *)

Module MexeRuns.
Import Py Mexe.





End MexeRuns.

(* ------------------------------------------------------------------ *)
(** ** [AWSAuthConnection.get_path] *)

Module Paths.
Local Open Scope string_scope.

(** [s.split('/')]: the pieces between the slashes, empty ones
    included; never the empty list. *)
Fixpoint split_slash (s : string) : list string :=
  match s with
  | EmptyString => [EmptyString]
  | String c rest =>
      let parts := split_slash rest in
      if Ascii.eqb c "/" then EmptyString :: parts
      else match parts with
           | p :: ps => String c p :: ps
           | [] => [String c EmptyString]
           end
  end.

(** ['/'.join(l)] *)
Fixpoint join_slash (l : list string) : string :=
  match l with
  | [] => EmptyString
  | [x] => x
  | x :: rest => x ++ String "/" (join_slash rest)
  end.

(** [pos = path.find('?')] with [path[:pos]] and [path[pos:]]; no
    [params] when there is no [?]. *)
Fixpoint split_q (s : string) : string * option string :=
  match s with
  | EmptyString => (EmptyString, None)
  | String c rest =>
      if Ascii.eqb c "?" then (EmptyString, Some s)
      else let (a, q) := split_q rest in (String c a, q)
  end.

(** [s[-1]]: [None] when [s] is empty (Python raises [IndexError]). *)
Fixpoint last_char (s : string) : option ascii :=
  match s with
  | EmptyString => None
  | String c EmptyString => Some c
  | String _ rest => last_char rest
  end.

(** Truthiness of a string. *)
Definition nonempty (s : string) : bool := negb (String.eqb s EmptyString).

(** [re.sub] of the anchored pattern (a group of any number of
    slashes, then one slash) by its group, on [path] (connection.py
    line 242): the run of leading slashes loses one slash. *)
Definition drop_one_leading_slash (s : string) : string :=
  match s with
  | String c rest => if Ascii.eqb c "/" then rest else s
  | EmptyString => s
  end.

(** [AWSAuthConnection.get_path(path)], connection.py lines 236-261, with
    [self.suppress_consec_slashes] and [self.path]. [None] is the
    [IndexError] of [path[-1]] on an empty path. *)
Definition get_path (suppress_consec_slashes : bool) (self_path path : string)
    : option string :=
  if negb suppress_consec_slashes then
    Some (self_path ++ drop_one_leading_slash path)
  else
    let (p, params) := split_q path in
    match last_char p with
    | None => None
    | Some lc =>
        let need_trailing := Ascii.eqb lc "/" in
        let path_elements :=
          filter nonempty (split_slash self_path ++ split_slash p) in
        let path1 := String "/" (join_slash path_elements) in
        let path2 :=
          if negb (match last_char path1 with
                   | Some c => Ascii.eqb c "/"
                   | None => false
                   end) && need_trailing
          then path1 ++ "/" else path1 in
        Some (match params with
              | Some q => if nonempty q then path2 ++ q else path2
              | None => path2
              end)
    end.

End Paths.

(* ------------------------------------------------------------------ *)
(** ** [HTTPRequest.__init__] and [AWSBaseConnection.send_request] *)

Module HttpRequest.
Import Request.
Local Open Scope string_scope.

(** [del d[k]] on a present key. *)
Fixpoint dict_del (k : string) (d : list (string * hval)) : list (string * hval) :=
  match d with
  | [] => []
  | (k', v) :: rest => if String.eqb k k' then rest else (k', v) :: dict_del k rest
  end.

(** An [HTTPRequest] as its constructor leaves it. *)
Record http_request : Type := mkHttpRequest {
  hr_method : string;
  protocol : string;
  host : string;
  port : nat;
  hr_path : string;
  auth_path : string;
  params : list (string * string);
  hr_headers : list (string * hval);
  hr_body : string;
  url : string
}.

(** [HTTPRequest.__init__], base/__init__.py lines 62-117: [auth_path]
    defaults to [path]; a chunked [Transfer-Encoding] is dropped from a
    copy of the headers unless the method is [PUT]; the url is
    ['{}://{}:{}{}'.format(protocol, host, port, path)]. *)
Definition init (method protocol host : string) (port : nat) (path : string)
    (auth_path : option string) (params : list (string * string))
    (headers : list (string * hval)) (body : string) : http_request :=
  let auth_path' := match auth_path with None => path | Some a => a end in
  let headers' :=
    if match headers with [] => false | _ => true end
       && is_chunked (dict_get "Transfer-Encoding" headers)
       && negb (String.eqb method "PUT")
    then dict_del "Transfer-Encoding" headers
    else headers in
  mkHttpRequest method protocol host port path auth_path' params headers' body
    (protocol ++ "://" ++ host ++ ":" ++ str_nat port ++ path).

(** [s.encode('utf-8')] of a text whose characters are the code points
    0-255. *)
Fixpoint utf8_encode (s : string) : string :=
  match s with
  | EmptyString => EmptyString
  | String c rest =>
      let n := nat_of_ascii c in
      if Nat.ltb n 128 then String c (utf8_encode rest)
      else String (ascii_of_nat (192 + n / 64))
             (String (ascii_of_nat (128 + n mod 64)) (utf8_encode rest))
  end.

(** [v.encode("utf-8") if isinstance(v, str) else v] *)
Definition encode_value (v : hval) : hval :=
  match v with
  | HText s => HBytes (utf8_encode s)
  | HBytes b => HBytes b
  end.

(** The headers [AWSBaseConnection.send_request] hands to treq
    (base/__init__.py lines 194-209): text values encoded to UTF-8
    bytes, and [Content-Length] deleted when the request has one. *)
Definition send_headers (h : list (string * hval)) : list (string * hval) :=
  let encoded := map (fun kv => (fst kv, encode_value (snd kv))) h in
  match dict_get "Content-Length" h with
  | Some _ => dict_del "Content-Length" encoded
  | None => encoded
  end.

End HttpRequest.

(* ------------------------------------------------------------------ *)
(** ** The characters [quote] leaves alone *)

Module QuoteChars.
Import Request.

(** A character that [quote] with the [safe] set of [authorize] copies. *)
Definition quote_safe (c : ascii) : bool :=
  always_safe c || str_existsb (Ascii.eqb c) safe_chars.

(** Every character of [s] is one [quote] copies. *)
Fixpoint all_safe (s : string) : bool :=
  match s with
  | EmptyString => true
  | String c rest => quote_safe c && all_safe rest
  end.

End QuoteChars.

(* ------------------------------------------------------------------ *)
(** ** Argument binding of the calls into [_mexe] *)

Module PyCall.
Import Py Request HttpRequest.
Local Open Scope string_scope.

(** The parameters of a Python function after [self]: a name and
    whether it has a default. *)
Definition signature : Type := list (string * bool).

Inductive bind_error : Type :=
| UnexpectedKeyword (k : string)
| MultipleValues (k : string)
| TooManyPositional (given : nat)
| MissingArgument (k : string).

Fixpoint index_of (k : string) (l : list string) : option nat :=
  match l with
  | [] => None
  | x :: rest =>
      if String.eqb k x then Some O
      else match index_of k rest with Some n => Some (S n) | None => None end
  end.

(** CPython's binding of [npos] positional and the keyword arguments
    [kws] to a function without [*args] or [**kwargs]: each keyword,
    in order, must name a parameter not filled positionally; then the
    positional count is checked; then every parameter left unfilled
    needs a default. *)
Definition bind_call (sg : signature) (npos : nat) (kws : list string)
    : option bind_error :=
  let names := map fst sg in
  let kw_err :=
    fold_left (fun acc k =>
      match acc with
      | Some _ => acc
      | None =>
          match index_of k names with
          | None => Some (UnexpectedKeyword k)
          | Some j => if Nat.ltb j npos then Some (MultipleValues k) else None
          end
      end) kws None in
  match kw_err with
  | Some err => Some err
  | None =>
      if Nat.ltb (List.length sg) npos then Some (TooManyPositional npos)
      else
        let missing :=
          filter (fun p => match index_of (fst p) names with
                           | Some j => Nat.leb npos j
                                       && negb (existsb (String.eqb (fst p)) kws)
                                       && negb (snd p)
                           | None => false
                           end) sg in
        match missing with
        | [] => None
        | p :: _ => Some (MissingArgument (fst p))
        end
  end.

(** The [TypeError] a binding failure raises. *)
Definition bind_type_error (f : string) (err : bind_error) : error :=
  match err with
  | UnexpectedKeyword k =>
      TypeError (f ++ "() got an unexpected keyword argument '" ++ k ++ "'")
  | MultipleValues k =>
      TypeError (f ++ "() got multiple values for argument '" ++ k ++ "'")
  | TooManyPositional n =>
      TypeError (f ++ "() takes too many positional arguments: "
                   ++ str_nat (S n) ++ " given")
  | MissingArgument k =>
      TypeError (f ++ "() missing required argument: '" ++ k ++ "'")
  end.

(** [_mexe(self, request, override_num_retries=1, retry_handler=None)]. *)
Definition _mexe_signature : signature :=
  [("request", false); ("override_num_retries", true); ("retry_handler", true)].

(** What a caller of [_mexe] comes to: an exception, the [IndexError]
    of [get_path], or [_mexe] entered with the built request. *)
Inductive call_result : Type :=
| Raises (e : error)
| IndexError
| Entered (r : http_request).

(** The connection attributes [build_base_http_request] reads. *)
Record conn : Type := mkConn {
  c_protocol : string;
  c_host : string;
  c_port : nat;
  c_path : string;
  c_suppress_consec_slashes : bool
}.

(** [build_base_http_request(method, path, auth_path, params, headers,
    body, host)], connection.py lines 316-335, on a connection whose
    [host_header] is [None]. *)
Definition build_base_http_request (c : conn) (method path : string)
    (auth_path : option string) (params : option (list (string * string)))
    (headers : option (list (string * hval))) (body : string)
    (host : option string) : option http_request :=
  match Paths.get_path (c_suppress_consec_slashes c) (c_path c) path with
  | None => None
  | Some path' =>
      let auth_path' :=
        match auth_path with
        | None => Some None
        | Some a =>
            match Paths.get_path (c_suppress_consec_slashes c) (c_path c) a with
            | None => None
            | Some a' => Some (Some a')
            end
        end in
      match auth_path' with
      | None => None
      | Some ap =>
          let params' := match params with None => [] | Some p => p end in
          let headers' := match headers with None => [] | Some h => h end in
          let host' := match host with
                       | Some h => if Paths.nonempty h then h else c_host c
                       | None => c_host c
                       end in
          Some (init method (c_protocol c) host' (c_port c) path' ap params'
                  headers' body)
      end
  end.

(** Entering [_mexe] with [npos] positional arguments after the request
    and the keywords [kws]. *)
Definition call_mexe (npos : nat) (kws : list string) (r : http_request)
    : call_result :=
  match bind_call _mexe_signature (S npos) kws with
  | Some err => Raises (bind_type_error "_mexe" err)
  | None => Entered r
  end.

(** [AWSAuthConnection.make_request], connection.py lines 440-449: the
    call [self._mexe(http_request, sender, override_num_retries,
    retry_handler=retry_handler)]. *)
Definition auth_make_request (c : conn) (method path : string)
    (headers : option (list (string * hval))) (body : string)
    (host auth_path : option string)
    (params : option (list (string * string))) : call_result :=
  let params' := match params with None => [] | Some p => p end in
  match build_base_http_request c method path auth_path (Some params') headers
          body host with
  | None => IndexError
  | Some r => call_mexe 2 ["retry_handler"%string] r
  end.

(** [Layer1.make_request(action, body)], layer1.py lines 118-139, up to
    the call [self._mexe(http_request, sender=None,
    override_num_retries=self.NumberRetries,
    retry_handler=self._retry_handler)]; [target] is
    ['%s_%s.%s' % (ServiceName, Version, action)] and [endpoint] is
    [self.region.endpoint]. *)
Definition layer1_make_request (c : conn) (target endpoint body : string)
    : call_result :=
  let headers := [("X-Amz-Target"%string, HText target);
                  ("Host"%string, HText endpoint);
                  ("Content-Type"%string, HText "application/x-amz-json-1.0");
                  ("Content-Length"%string, HText (str_nat (String.length body)))] in
  match build_base_http_request c "POST" "/" (Some "/"%string) (Some []) (Some headers)
          body None with
  | None => IndexError
  | Some r =>
      call_mexe 0 ["sender"%string; "override_num_retries"%string;
                   "retry_handler"%string] r
  end.

End PyCall.

(* ------------------------------------------------------------------ *)
(** ** [AWSQueryConnection.make_request] *)

Module QueryConn.
Import Mexe HttpRequest PyCall.
Local Open Scope string_scope.

(** A dict of query parameters with string values, in insertion order;
    [d[k] = v] keeps an existing key in its place. *)
Fixpoint pset (k v : string) (d : list (string * string)) : list (string * string) :=
  match d with
  | [] => [(k, v)]
  | (k', v') :: rest =>
      if String.eqb k k' then (k, v) :: rest else (k', v') :: pset k v rest
  end.

Fixpoint pget (k : string) (d : list (string * string)) : option string :=
  match d with
  | [] => None
  | (k', v) :: rest => if String.eqb k k' then Some v else pget k rest
  end.

(** [http_request.params = p] *)
Definition set_params (r : http_request) (p : list (string * string)) : http_request :=
  mkHttpRequest (hr_method r) (protocol r) (host r) (port r) (hr_path r) (auth_path r)
    p (hr_headers r) (hr_body r) (url r).

(** What [AWSQueryConnection.make_request] comes to: an exception before
    [_mexe] is entered, the [IndexError] of [get_path], or the request
    [_mexe] is entered with and the run of [_mexe]. *)
Inductive qresult : Type :=
| QRaises (e : Py.error)
| QIndexError
| QMexe (r : http_request) (o : outcome).

(** [AWSQueryConnection.make_request(action, params=None, path='/',
    verb='GET')], connection.py lines 484-492:
    [build_base_http_request(verb, path, None, params, {}, '', self.host)]
    (which copies [params], [{}] for [None]); [Action] and [Version] are
    set in the request's [params] when truthy ([api_version] is the class
    attribute [APIVersion]); then [self._mexe(http_request)], leaving
    [override_num_retries] at its default 1 and passing no retry
    handler. *)
Definition make_request (fuel : nat) (e : env) (c : conn) (api_version action : string)
    (params : option (list (string * string))) (path verb : string) : qresult :=
  match build_base_http_request c verb path None params (Some []) "" (Some (c_host c)) with
  | None => QIndexError
  | Some r =>
      let p1 := if String.eqb action "" then HttpRequest.params r
                else pset "Action" action (HttpRequest.params r) in
      let p2 := if String.eqb api_version "" then p1 else pset "Version" api_version p1 in
      match call_mexe 0 [] (set_params r p2) with
      | Raises err => QRaises err
      | IndexError => QIndexError
      | Entered r' => QMexe r' (_mexe fuel e (Some 1%Z) None)
      end
  end.

End QueryConn.

(* ------------------------------------------------------------------ *)
(** ** The DynamoDB table operations of [Layer1] *)

Module Layer1Tables.
Import Py.
Local Open Scope string_scope.

(** Python truthiness of an argument; an omitted argument is [None],
    that is [JNull]. *)
Definition py_truthy (v : json) : bool :=
  match v with
  | JNull => false
  | JBool b => b
  | JNum z => negb (Z.eqb z 0)
  | JString s => negb (String.eqb s "")
  | JList l => match l with [] => false | _ => true end
  | JObject kv => match kv with [] => false | _ => true end
  end.

(** [d[k] = v] on a dict: an existing key keeps its place and takes the
    new value, a new key goes last. *)
Fixpoint dset (k : string) (v : json) (d : list (string * json))
    : list (string * json) :=
  match d with
  | [] => [(k, v)]
  | (k', v') :: rest =>
      if String.eqb k k' then (k', v) :: rest else (k', v') :: dset k v rest
  end.

(** [if cond: data[k] = v] *)
Definition set_if (cond : bool) (k : string) (v : json)
    (d : list (string * json)) : list (string * json) :=
  if cond then dset k v d else d.

(** [x in result] for the decoded answer: a key of a dict, an element of
    a list, a substring of a string; on [None], a bool or a number Python
    raises [TypeError] (here [None]). *)
Definition py_contains (x : string) (v : json) : option bool :=
  match v with
  | JObject kv => Some (existsb (fun p => String.eqb x (fst p)) kv)
  | JList l =>
      Some (existsb (fun e => match e with
                              | JString s => String.eqb x s
                              | _ => false
                              end) l)
  | JString s => Some (match String.index 0 x s with Some _ => true | None => false end)
  | JNull | JBool _ | JNum _ => None
  end.

(** A [Layer1] table operation as a program over
    [self.make_request(action, json.dumps(data), object_hook=...)]:
    it returns, raises, or makes the request and continues with the
    decoded answer. *)
Inductive op : Type :=
| ORet (v : json)
| ORaise (e : error)
| ODynamoDBKeyNotFoundError (msg : string)
| OMakeRequest (action : string) (data : list (string * json))
    (object_hook : option (json -> json)) (k : json -> op).

(** The program after [make_request] answered [result]. *)
Definition respond (result : json) (p : op) : op :=
  match p with
  | OMakeRequest _ _ _ k => k result
  | _ => p
  end.

(** The action and the dict a program sends first, if it sends one. *)
Definition request_of (p : op) : option (string * list (string * json)) :=
  match p with
  | OMakeRequest a d _ _ => Some (a, d)
  | _ => None
  end.

(** [result = yield self.make_request(action, ...)];
    [defer.returnValue(result)] *)
Definition request_return (action : string) (data : list (string * json))
    (object_hook : option (json -> json)) : op :=
  OMakeRequest action data object_hook (fun result => ORet result).

(** [Layer1.list_tables], layer1.py lines 193-220 (no [object_hook]). *)
Definition list_tables (limit start_table : json) : op :=
  let data := set_if (py_truthy limit) "Limit" limit [] in
  let data := set_if (py_truthy start_table) "ExclusiveStartTableName"
                start_table data in
  request_return "ListTables" data None.

(** [Layer1.describe_table], layer1.py lines 223-235. *)
Definition describe_table (table_name : string) : op :=
  request_return "DescribeTable" [("TableName", JString table_name)] None.

(** [Layer1.create_table], layer1.py lines 238-263. *)
Definition create_table (table_name : string) (schema provisioned_throughput : json)
    : op :=
  request_return "CreateTable"
    [("TableName", JString table_name); ("KeySchema", schema);
     ("ProvisionedThroughput", provisioned_throughput)] None.

(** [Layer1.update_table], layer1.py lines 266-282. *)
Definition update_table (table_name : string) (provisioned_throughput : json) : op :=
  request_return "UpdateTable"
    [("TableName", JString table_name);
     ("ProvisionedThroughput", provisioned_throughput)] None.

(** [Layer1.delete_table], layer1.py lines 285-297. *)
Definition delete_table (table_name : string) : op :=
  request_return "DeleteTable" [("TableName", JString table_name)] None.

(** [Layer1.get_item], layer1.py lines 300-336. *)
Definition get_item (table_name : string) (key attributes_to_get consistent_read : json)
    (object_hook : option (json -> json)) : op :=
  let data := [("TableName", JString table_name); ("Key", key)] in
  let data := set_if (py_truthy attributes_to_get) "AttributesToGet"
                attributes_to_get data in
  let data := set_if (py_truthy consistent_read) "ConsistentRead" (JBool true) data in
  OMakeRequest "GetItem" data object_hook (fun result =>
    match py_contains "Item" result with
    | None => ORaise (TypeError "argument is not iterable")
    | Some false => ODynamoDBKeyNotFoundError "Key does not exist."
    | Some true => ORet result
    end).

(** [Layer1.batch_write_item], layer1.py lines 358-371. *)
Definition batch_write_item (request_items : json)
    (object_hook : option (json -> json)) : op :=
  request_return "BatchWriteItem" [("RequestItems", request_items)] object_hook.

(** [Layer1.put_item], layer1.py lines 374-412. *)
Definition put_item (table_name : string) (item expected return_values : json)
    (object_hook : option (json -> json)) : op :=
  let data := [("TableName", JString table_name); ("Item", item)] in
  let data := set_if (py_truthy expected) "Expected" expected data in
  let data := set_if (py_truthy return_values) "ReturnValues" return_values data in
  request_return "PutItem" data object_hook.

(** [Layer1.update_item], layer1.py lines 415-456. *)
Definition update_item (table_name : string)
    (key attribute_updates expected return_values : json)
    (object_hook : option (json -> json)) : op :=
  let data := [("TableName", JString table_name); ("Key", key);
               ("AttributeUpdates", attribute_updates)] in
  let data := set_if (py_truthy expected) "Expected" expected data in
  let data := set_if (py_truthy return_values) "ReturnValues" return_values data in
  request_return "UpdateItem" data object_hook.

(** [Layer1.delete_item], layer1.py lines 459-494. *)
Definition delete_item (table_name : string) (key expected return_values : json)
    (object_hook : option (json -> json)) : op :=
  let data := [("TableName", JString table_name); ("Key", key)] in
  let data := set_if (py_truthy expected) "Expected" expected data in
  let data := set_if (py_truthy return_values) "ReturnValues" return_values data in
  request_return "DeleteItem" data object_hook.

(** [Layer1.query], layer1.py lines 497-564. *)
Definition query (table_name : string)
    (hash_key_value range_key_conditions attributes_to_get limit
     consistent_read scan_index_forward exclusive_start_key : json)
    (object_hook : option (json -> json)) (count : json) : op :=
  let data := [("TableName", JString table_name);
               ("HashKeyValue", hash_key_value)] in
  let data := set_if (py_truthy range_key_conditions) "RangeKeyCondition"
                range_key_conditions data in
  let data := set_if (py_truthy attributes_to_get) "AttributesToGet"
                attributes_to_get data in
  let data := set_if (py_truthy limit) "Limit" limit data in
  let data := set_if (py_truthy count) "Count" (JBool true) data in
  let data := set_if (py_truthy consistent_read) "ConsistentRead" (JBool true) data in
  let data := if py_truthy scan_index_forward
              then dset "ScanIndexForward" (JBool true) data
              else dset "ScanIndexForward" (JBool false) data in
  let data := set_if (py_truthy exclusive_start_key) "ExclusiveStartKey"
                exclusive_start_key data in
  request_return "Query" data object_hook.

(** [Layer1.scan], layer1.py lines 567-614. *)
Definition scan (table_name : string)
    (scan_filter attributes_to_get limit exclusive_start_key : json)
    (object_hook : option (json -> json)) (count : json) : op :=
  let data := [("TableName", JString table_name)] in
  let data := set_if (py_truthy scan_filter) "ScanFilter" scan_filter data in
  let data := set_if (py_truthy attributes_to_get) "AttributesToGet"
                attributes_to_get data in
  let data := set_if (py_truthy limit) "Limit" limit data in
  let data := set_if (py_truthy count) "Count" (JBool true) data in
  let data := set_if (py_truthy exclusive_start_key) "ExclusiveStartKey"
                exclusive_start_key data in
  request_return "Scan" data object_hook.

End Layer1Tables.

(* ================================================================== *)
(** * Properties *)

(* ------------------------------------------------------------------ *)
(** ** The configuration *)

Module ConfigFacts.

(** The backoff cap is the default 60 whatever the configuration holds:
    [Config.get] never returns what it found. *)
Lemma max_retry_delay_default l :
  Config.max_retry_delay l = inr Backoff.default_max_retry_delay.
Proof. destruct l; reflexivity. Qed.

End ConfigFacts.

(* ------------------------------------------------------------------ *)
(** ** Backoff *)

Module BackoffFacts.
Import Backoff.
Open Scope Q_scope.

Lemma py_min_le_l a b : py_min a b <= a.
Proof.
  unfold py_min. destruct (Qle_bool a b) eqn:E.
  - apply Qle_refl.
  - apply Qlt_le_weak, Qnot_le_lt. intro H.
    apply Qle_bool_iff in H. congruence.
Qed.

Lemma py_min_le_r a b : py_min a b <= b.
Proof.
  unfold py_min. destruct (Qle_bool a b) eqn:E.
  - now apply Qle_bool_iff.
  - apply Qle_refl.
Qed.

Lemma py_min_glb x a b : x <= a -> x <= b -> x <= py_min a b.
Proof. intros Ha Hb. unfold py_min. now destruct (Qle_bool a b). Qed.

Lemma py_min_mono_l a a' b : a <= a' -> py_min a b <= py_min a' b.
Proof.
  intros H. apply py_min_glb.
  - eapply Qle_trans; [apply py_min_le_l | exact H].
  - apply py_min_le_r.
Qed.

Lemma pow2_nonneg (i : Z) : 0 <= Qpower (2 # 1) i.
Proof. apply Qpower_0_le. discriminate. Qed.

End BackoffFacts.

Module BackoffClaims.
Import Backoff BackoffFacts ConfigFacts.
Open Scope Q_scope.

(** C2 (code bug): whatever the configuration holds for
    [TxBoto]/[max_retry_delay], [config.get] gives the default 60 on
    Python 3, so both curves are capped at 60, not at the configured
    value. For a draw [r] of [random.random()] in [0, 1), the standard
    delay of [_mexe] lies in [[0, min(2^i, 60)]] and the throughput
    delay of [_exponential_time] in [[0, min(0.05 * 2^i, 60)]]. With
    [max_retry_delay = 10] configured, the standard delay for [r = 0.75]
    at [i = 4] is 12 and the throughput delay at [i = 8] is 12.8, both
    above 10. *)
Theorem backoff_ignores_configured_cap (l : Config.lookup) (r : Q) (i : Z)
    (Hr : 0 <= r /\ r < 1) :
  Config.max_retry_delay l = inr default_max_retry_delay
  /\ (0 <= next_sleep r i default_max_retry_delay
      /\ next_sleep r i default_max_retry_delay
         <= py_min (Qpower (2 # 1) i) default_max_retry_delay)
  /\ (0 <= _exponential_time default_max_retry_delay i
      /\ _exponential_time default_max_retry_delay i
         <= py_min ((1 # 20) * Qpower (2 # 1) i) default_max_retry_delay)
  /\ (match Config.max_retry_delay (Config.Found "10") with
      | inr cap => next_sleep (3 # 4) 4 cap == 12 # 1
      | inl _ => False
      end)
  /\ (exists q, Dynamo._exponential_time
                 (Dynamo.mkDenv (fun _ => None) DynamoInputs.fresh_provider
                    (Config.Found "10")) 8 = inr q
               /\ q == 64 # 5 /\ 10 # 1 < q).
Proof.
  destruct Hr as [Hr0 Hr1].
  pose proof (pow2_nonneg i) as Hp.
  assert (Hm : 0 <= r * Qpower (2 # 1) i) by (apply Qmult_le_0_compat; auto).
  assert (Hm' : 0 <= (1 # 20) * Qpower (2 # 1) i)
    by (apply Qmult_le_0_compat; [discriminate | auto]).
  assert (Hcap : 0 <= default_max_retry_delay) by discriminate.
  split; [apply max_retry_delay_default|].
  split; [|split; [|split]].
  - unfold next_sleep. split.
    + apply py_min_glb; auto.
    + apply py_min_mono_l.
      rewrite <- (Qmult_1_l (Qpower (2 # 1) i)) at 2.
      apply Qmult_le_compat_r; auto. now apply Qlt_le_weak.
  - unfold _exponential_time. destruct (Z.eqb i 0).
    + split; [apply Qle_refl | apply py_min_glb; auto].
    + split; [apply py_min_glb; auto | apply Qle_refl].
  - vm_compute. reflexivity.
  - eexists. split; [reflexivity|]. split; vm_compute; reflexivity.
Qed.

Lemma backoff_ignores_configured_cap_witness :
  Config.max_retry_delay (Config.Found "10") = inr default_max_retry_delay.
Proof.
  apply (backoff_ignores_configured_cap (Config.Found "10") (3 # 4) 4).
  split; vm_compute; [discriminate | reflexivity].
Defined.



End BackoffClaims.

(* ------------------------------------------------------------------ *)
(** ** The execution loop *)

Module MexeFacts.
Import Py Mexe MexeInputs ConfigFacts.

Lemma after_loop_terminal e s :
  is_running (after_loop e s) = false /\ attempts (after_loop e s) = att s.
Proof.
  unfold after_loop.
  destruct (request_hook e) as [h|]; [destruct (h true)|];
  destruct (last_response s) as [r|];
  try (destruct (resp_status r); [destruct (reason r)|]);
  try destruct (last_ex s); simpl; auto.
Qed.

(** An exception in the [try] either propagates or is kept for a retry. *)
Lemma in_try_cases err k retry :
  in_try err k retry = Failed err k \/ exists c, in_try err k retry = retry c.
Proof.
  unfold in_try. destruct err as [c| | | | | | | | | |]; auto.
  destruct (in_http_exceptions c); [|auto].
  destruct (in_http_unretryable_exceptions c); [auto | right; eauto].
Qed.

(** One pass through the loop body: it ends [_mexe] after exactly one
    more attempt, or it goes round again with one more attempt made and
    a larger index. *)
Lemma loop_step fuel e N oh s :
  handler_ok oh -> (idx s <= N)%Z ->
  (is_running (loop (S fuel) e N oh s) = false
   /\ attempts (loop (S fuel) e N oh s) = S (att s))
  \/ (exists s', loop (S fuel) e N oh s = loop fuel e N oh s'
                 /\ att s' = S (att s) /\ (idx s + 1 <= idx s')%Z).
Proof.
  intros Hok Hle. cbn [loop].
  replace (Z.leb (idx s) N) with true by (symmetry; now apply Z.leb_le).
  rewrite max_retry_delay_default.
  cbv zeta.
  (* an exception caught in the [try] *)
  assert (Htry : forall err (s' : st),
    att s' = S (att s) ->
    (is_running (in_try err (S (att s)) (fun c => loop fuel e N oh
                   (set_idx (idx s + 1) (set_ex c s')))) = false
     /\ attempts (in_try err (S (att s)) (fun c => loop fuel e N oh
                   (set_idx (idx s + 1) (set_ex c s')))) = S (att s))
    \/ (exists s'', in_try err (S (att s)) (fun c => loop fuel e N oh
                     (set_idx (idx s + 1) (set_ex c s'))) = loop fuel e N oh s''
                  /\ att s'' = S (att s) /\ (idx s + 1 <= idx s'')%Z)).
  { intros err s' Hs'.
    destruct (in_try_cases err (S (att s)) (fun c => loop fuel e N oh
                (set_idx (idx s + 1) (set_ex c s')))) as [H|[c H]]; rewrite H.
    - left. auto.
    - right. eexists. split; [reflexivity | simpl; split; [exact Hs' | lia]]. }
  destruct (send e (att s)) as [r0|c|r0].
  - set (r := mkResponse _ _ _ _ _).
    assert (Hdef : forall next,
      (is_running (default_handling e r (set_response r (set_att (S (att s)) s))
                     (idx s) next) = false
       /\ attempts (default_handling e r (set_response r (set_att (S (att s)) s))
                     (idx s) next) = S (att s))
      \/ (exists s', default_handling e r (set_response r (set_att (S (att s)) s))
                       (idx s) next = next s'
                     /\ att s' = S (att s) /\ (idx s + 1 <= idx s')%Z)).
    { intro next. unfold default_handling.
      destruct (existsb (Z.eqb (code r)) retry_codes).
      - destruct (utf8_decodes (content r)).
        + right. eexists. split; [reflexivity | simpl; split; [reflexivity | lia]].
        + left. simpl. auto.
      - destruct (_ || _ || _).
        + destruct (request_hook e) as [h|]; [destruct (h false) as [err|]|];
            [|left; simpl; auto | left; simpl; auto].
          destruct (in_try_cases err (att (set_response r (set_att (S (att s)) s)))
                      (fun c => next (set_idx (idx s + 1)
                                        (set_ex c (set_response r (set_att (S (att s)) s))))))
            as [H|[c H]]; rewrite H.
          * left. simpl. auto.
          * right. eexists. split; [reflexivity | simpl; split; [reflexivity | lia]].
        + right. eexists. split; [reflexivity | simpl; split; [reflexivity | lia]]. }
    destruct oh as [h|].
    + destruct (h r (content r) (idx s) _) as [err|[[[m i'] ns']|]] eqn:Hh.
      * apply Htry. reflexivity.
      * right. exists (set_idx i' (set_response r (set_att (S (att s)) s))).
        split; [reflexivity|]. simpl. split; [reflexivity|].
        apply Hok in Hh. lia.
      * apply Hdef.
    + apply Hdef.
  - apply (Htry (Transport c) (set_att (S (att s)) s)). reflexivity.
  - left. simpl. auto.
Qed.

(** The attempt count of the loop, from any state: at most
    [N - i + 1] more attempts, and the loop has ended once its fuel
    exceeds that. *)
Lemma loop_attempts_bounded fuel : forall e N oh s,
  handler_ok oh ->
  (attempts (loop fuel e N oh s) <= att s + Z.to_nat (N - idx s + 1))%nat
  /\ ((Z.to_nat (N - idx s + 1) < fuel)%nat ->
      is_running (loop fuel e N oh s) = false).
Proof.
  induction fuel as [|fuel IH]; intros e N oh s Hok.
  - simpl. split; [lia | intro H; lia].
  - destruct (Z.le_gt_cases (idx s) N) as [Hle|Hgt].
    + destruct (loop_step fuel e N oh s Hok Hle) as [[Hr Ha]|[s' [Heq [Ha Hi]]]].
      * rewrite Hr, Ha. split; [lia | reflexivity].
      * rewrite Heq. destruct (IH e N oh s' Hok) as [IH1 IH2].
        split.
        -- rewrite Ha in IH1. lia.
        -- intro H. apply IH2. lia.
    + cbn [loop].
      replace (Z.leb (idx s) N) with false by (symmetry; apply Z.leb_gt; lia).
      destruct (after_loop_terminal e s) as [Hr Ha].
      rewrite Hr, Ha. split; [lia | reflexivity].
Qed.

End MexeFacts.

Module MexeClaims.
Import Py Mexe MexeInputs MexeFacts ConfigFacts.

(** C1 (amended): with no retry handler, or a retry handler whose
    returned index always exceeds the current one, [_mexe] with a budget
    [N >= 0] makes at most [N + 1] attempts on every sequence of responses
    and transport exceptions, and it has ended after [N + 1] passes. *)
Theorem mexe_at_most_budget_plus_one_attempts fuel e override_num_retries oh
    (Hok : handler_ok oh)
    (HN : (0 <= resolve_num_retries e override_num_retries)%Z) :
  (attempts (_mexe fuel e override_num_retries oh)
     <= Z.to_nat (resolve_num_retries e override_num_retries) + 1)%nat
  /\ ((Z.to_nat (resolve_num_retries e override_num_retries) + 1 < fuel)%nat ->
      is_running (_mexe fuel e override_num_retries oh) = false).
Proof.
  unfold _mexe.
  destruct (loop_attempts_bounded fuel e (resolve_num_retries e override_num_retries)
              oh (mkSt 0 0 None None None) Hok) as [H1 H2].
  simpl in H1, H2.
  replace (Z.to_nat (resolve_num_retries e override_num_retries - 0 + 1))
    with (Z.to_nat (resolve_num_retries e override_num_retries) + 1)%nat
    in H1, H2 by lia.
  split; [exact H1 | exact H2].
Qed.

Lemma mexe_at_most_budget_plus_one_attempts_witness :
  handler_ok None /\ (0 <= resolve_num_retries (const_env (Received (treq_response 503 "busy"))) (Some 3%Z))%Z
  /\ (attempts (_mexe 20 (const_env (Received (treq_response 503 "busy"))) (Some 3%Z) None)
        <= Z.to_nat (resolve_num_retries (const_env (Received (treq_response 503 "busy"))) (Some 3%Z)) + 1)%nat.
Proof.
  split; [exact I|]. split; [vm_compute; discriminate|].
  apply (mexe_at_most_budget_plus_one_attempts 20
           (const_env (Received (treq_response 503 "busy"))) (Some 3%Z) None I).
  vm_compute. discriminate.
Defined.

(** C1 (as stated) fails: with budget 0 and a retry handler that hands
    the index back unchanged, [_mexe] has made 3 attempts, more than
    [0 + 1], and is still looping. *)
Lemma mexe_same_index_handler_exceeds_budget :
  let o := _mexe 3 (const_env (Received (treq_response 200 "{}"))) (Some 0%Z)
             (Some same_index_handler) in
  is_running o = true /\ attempts o = 3%nat /\ (Z.to_nat 0 + 1 < attempts o)%nat.
Proof. vm_compute. auto. Qed.



(** C5: with a budget of 0 and one 503 response from [send_request]
    (a treq response, which has no [status] attribute), [_mexe] does not
    raise [BotoServerError]: [response.status] raises [AttributeError]. *)
Theorem exhausted_503_raises_attribute_error :
  _mexe 5 (const_env (Received (treq_response 503 "Service busy"))) (Some 0%Z) None
  = Failed (AttributeError "status") 1.
Proof. vm_compute. reflexivity. Qed.

(** The same run with a response that has a [status] attribute raises
    [BotoServerError] with that status, the reason set by [_mexe] and the
    last 5xx body. *)
Example exhausted_503_with_status_attribute :
  _mexe 5 (const_env (Received (mkResponse 503 None "Service busy" (Some 503%Z) None)))
    (Some 2%Z) None
  = Failed (BotoServerError 503 "Service Unavailable" (Some "Service busy"%string)) 3.
Proof. vm_compute. reflexivity. Qed.

(** No response and a transport exception on every attempt: that
    exception is re-raised after the budget is spent. *)
Example exhausted_transport_error_reraised :
  _mexe 5 (const_env (Raised TimeoutError)) (Some 2%Z) None
  = Failed (Transport TimeoutError) 3.
Proof. vm_compute. reflexivity. Qed.

End MexeClaims.

(* ------------------------------------------------------------------ *)
(** ** The DynamoDB retry handler *)

Module DynamoFacts.
Import Py Dynamo DynamoInputs ConfigFacts.

(** The delay [Layer1._exponential_time] computes, with the cap 60 that
    [txboto.config.get] always gives. *)
Lemma exponential_time_default d i :
  _exponential_time d i
  = inr (Backoff._exponential_time Backoff.default_max_retry_delay i).
Proof.
  unfold _exponential_time, Backoff._exponential_time.
  destruct (Z.eqb i 0); [reflexivity|].
  now rewrite max_retry_delay_default.
Qed.

Lemma retry_handler_unfold d r i ns c :
  _retry_handler d r i ns c
  = match handle_400 d r i c with
    | (inl e, c') => (inl e, c')
    | (inr p, c') => check_crc32 d r (fst p) (snd p) c'
    end.
Proof. reflexivity. Qed.


Section Error400.
Variables (d : denv) (r : dresponse) (i : Z) (c : layer1).
Variables (kv : list (string * json)) (t : string).
Hypothesis H400 : status r = 400%Z.
Hypothesis Hjson : json_loads d (read r) = Some (JObject kv).
Hypothesis Htype : assoc_get "__type" kv = Some (JString t).



Lemma handle_400_conditional_check :
  contains ThruputError t = false -> contains SessionExpiredError t = false ->
  contains ConditionalCheckFailedError t = true ->
  handle_400 d r i c
  = (inl (DynamoDBConditionalCheckFailedError (status r) (dreason r) (JObject kv)), c).
Proof.
  intros Ht He Hc. unfold handle_400.
  replace (Z.eqb (status r) 400) with true by (symmetry; now apply Z.eqb_eq).
  unfold bind, lift. rewrite Hjson. cbv match beta.
  rewrite Htype. unfold py_in. rewrite Ht, He, Hc.
  reflexivity.
Qed.

End Error400.

(** The checksum block on a response it does not look at. *)
Lemma check_crc32_skip d r i st0 c :
  crc_header r = None \/ _validate_checksums c = false ->
  check_crc32 d r i st0 c = (inr st0, c).
Proof.
  intros H. unfold check_crc32, bind, get_validate_checksums, ret.
  destruct H as [H|H]; rewrite H; [reflexivity|].
  now destruct (crc_header r).
Qed.

Section Checked.
Variables (d : denv) (r : dresponse) (i : Z) (st0 : option (msg * Z * Q)).
Variables (c : layer1) (h : string).
Hypothesis Hv : _validate_checksums c = true.
Hypothesis Hh : crc_header r = Some h.

Lemma check_crc32_not_utf8 :
  utf8_decodes (read r) = false ->
  check_crc32 d r i st0 c = (inl (UnicodeDecodeError "utf-8"), c).
Proof.
  intro Hu. unfold check_crc32, bind, get_validate_checksums.
  rewrite Hv, Hh, Hu. reflexivity.
Qed.

Lemma check_crc32_bad_header :
  utf8_decodes (read r) = true -> py_int h = None ->
  check_crc32 d r i st0 c = (inl (ValueError "int"), c).
Proof.
  intros Hu Hn. unfold check_crc32, bind, get_validate_checksums, lift.
  rewrite Hv, Hh, Hu, Hn. reflexivity.
Qed.

Lemma check_crc32_match :
  utf8_decodes (read r) = true ->
  py_int h = Some (Z.land (Crc.crc32 (read r)) 4294967295) ->
  check_crc32 d r i st0 c = (inr st0, c).
Proof.
  intros Hu Hn. unfold check_crc32, bind, get_validate_checksums, lift.
  rewrite Hv, Hh, Hu, Hn. cbv beta iota. now rewrite Z.eqb_refl.
Qed.

Lemma check_crc32_mismatch n :
  utf8_decodes (read r) = true -> py_int h = Some n ->
  Z.land (Crc.crc32 (read r)) 4294967295 <> n ->
  check_crc32 d r i st0 c
  = (inr (Some (MsgChecksum (Z.land (Crc.crc32 (read r)) 4294967295) n, (i + 1)%Z,
                Backoff._exponential_time Backoff.default_max_retry_delay i)), c).
Proof.
  intros Hu Hn Hm. unfold check_crc32, bind, get_validate_checksums, lift.
  rewrite Hv, Hh, Hu, Hn. cbv beta iota.
  replace (Z.eqb _ n) with false by (symmetry; now apply Z.eqb_neq).
  rewrite exponential_time_default. reflexivity.
Qed.

End Checked.


Lemma incr_events_validate c :
  _validate_checksums (incr_events c) = _validate_checksums c.
Proof. reflexivity. Qed.

Lemma session_token_validate d c :
  _validate_checksums (snd (_get_session_token d c)) = _validate_checksums c.
Proof. reflexivity. Qed.

End DynamoFacts.

Module DynamoFacts2.
Import Py Dynamo DynamoFacts.

Lemma check_crc32_cases d r i st0 c :
  snd (check_crc32 d r i st0 c) = c
  /\ (fst (check_crc32 d r i st0 c) = inr st0
      \/ (exists m, fst (check_crc32 d r i st0 c)
                    = inr (Some (m, (i + 1)%Z,
                                 Backoff._exponential_time Backoff.default_max_retry_delay i)))
      \/ exists err, fst (check_crc32 d r i st0 c) = inl err).
Proof.
  destruct (crc_header r) as [h|] eqn:Hh;
    [|rewrite check_crc32_skip by auto; cbn [fst snd]; auto].
  destruct (_validate_checksums c) eqn:Hv;
    [|rewrite check_crc32_skip by auto; cbn [fst snd]; auto].
  destruct (utf8_decodes (read r)) eqn:Hu;
    [|rewrite (check_crc32_not_utf8 d r i st0 c h) by auto;
      split; [reflexivity | right; right; eexists; reflexivity]].
  destruct (py_int h) as [n|] eqn:Hn;
    [|rewrite (check_crc32_bad_header d r i st0 c h) by auto;
      split; [reflexivity | right; right; eexists; reflexivity]].
  destruct (Z.eq_dec (Z.land (Crc.crc32 (read r)) 4294967295) n) as [E|Hm].
  - subst n. rewrite (check_crc32_match d r i st0 c h) by auto. cbn [fst snd]; auto.
  - rewrite (check_crc32_mismatch d r i st0 c h Hv Hh n Hu Hn Hm).
    split; [reflexivity|]. right. left. eexists. reflexivity.
Qed.

(** The local [i] after the 400 block is [i] or, after a throughput
    error, [i + 1]; the block keeps [num_retries]. *)
Lemma handle_400_index d r i c j st0 c' :
  handle_400 d r i c = (inr (j, st0), c') ->
  num_retries c' = num_retries c
  /\ ((j = i /\ (st0 = None \/ exists m, st0 = Some (m, (i + num_retries c - 1)%Z, 0%Q)))
      \/ (j = (i + 1)%Z /\ exists m ns, st0 = Some (m, (i + 1)%Z, ns))).
Proof.
  unfold handle_400, _get_session_token, bind, lift, ret, raise, modify,
    get_num_retries.
  intro H. cbn beta iota zeta in H.
  repeat match goal with
         | H : context [match ?x with _ => _ end] |- _ =>
             destruct x eqn:?; cbn beta iota zeta in H
         end;
  try discriminate;
  injection H as <- <- <-; cbn [num_retries incr_events update_provider];
  (split; [reflexivity|]);
  first [ left; split; [reflexivity | first [now left | right; eexists; reflexivity]]
        | right; split; [reflexivity | do 2 eexists; reflexivity] ].
Qed.

(** The index the handler hands back is [i + 1], [i + 2] (a checksum
    mismatch after a throughput error) or [i + num_retries - 1]. *)
Lemma retry_handler_index d r i ns c m i' ns' :
  fst (_retry_handler d r i ns c) = inr (Some (m, i', ns')) ->
  i' = (i + 1)%Z \/ i' = (i + 2)%Z \/ i' = (i + num_retries c - 1)%Z.
Proof.
  rewrite retry_handler_unfold.
  destruct (handle_400 d r i c) as [[e|[j st0]] c'] eqn:H4; [discriminate|].
  cbn [fst snd].
  apply handle_400_index in H4 as [_ H4].
  destruct (check_crc32_cases d r j st0 c') as [_ [Hc|[[m0 Hc]|[err Hc]]]];
    rewrite Hc; intro H; try discriminate;
    injection H as H; subst.
  - destruct H4 as [[-> [Hs|[m1 Hs]]]|[-> [m1 [ns1 Hs]]]];
      try discriminate; injection Hs; intros; subst; lia.
  - destruct H4 as [[-> _]|[-> _]]; lia.
Qed.

(** With [num_retries >= 2] (6 as [AWSAuthConnection.__init__] sets
    it), [Layer1._retry_handler] always hands back a larger index. *)
Lemma retry_handler_advances d r i ns c m i' ns' :
  (2 <= num_retries c)%Z ->
  fst (_retry_handler d r i ns c) = inr (Some (m, i', ns')) -> (i < i')%Z.
Proof.
  intros Hn H. apply retry_handler_index in H. lia.
Qed.

End DynamoFacts2.

Module DynamoClaims.
Import Py Dynamo DynamoInputs DynamoFacts DynamoFacts2.










End DynamoClaims.

(* ------------------------------------------------------------------ *)
(** ** [HTTPRequest.authorize] *)

Module RequestClaims.
Import Request.

Lemma quote_headers_quoted r : _headers_quoted (quote_headers r) = true.
Proof. unfold quote_headers. destruct (_headers_quoted r) eqn:E; auto. Qed.

Lemma quote_headers_already r : _headers_quoted r = true -> quote_headers r = r.
Proof. intro H. unfold quote_headers. now rewrite H. Qed.

Lemma authorize_rest_quoted ua add_auth r :
  _headers_quoted (authorize_rest ua add_auth r) = _headers_quoted r.
Proof.
  unfold authorize_rest.
  destruct (dict_get "Content-Length" _); [reflexivity|].
  destruct (is_chunked _); reflexivity.
Qed.

Lemma iter_rest_quoted ua add_auth n r :
  _headers_quoted r = true ->
  _headers_quoted (Nat.iter n (authorize_rest ua add_auth) r) = true.
Proof.
  intro H. induction n as [|n IH]; simpl; auto.
  now rewrite authorize_rest_quoted.
Qed.

(** C9: across any number [n + 1] of [authorize] calls the header values
    are percent-encoded once, by the first call (none at all if the
    request was already marked quoted): the calls equal one quoting step
    followed by [n + 1] runs of the non-encoding rest of [authorize]. A
    second call thus re-encodes nothing. *)
Theorem authorize_encodes_headers_once ua add_auth n r :
  Nat.iter (S n) (authorize ua add_auth) r
  = Nat.iter (S n) (authorize_rest ua add_auth) (quote_headers r)
  /\ authorize ua add_auth (authorize ua add_auth r)
     = authorize_rest ua add_auth (authorize_rest ua add_auth (quote_headers r)).
Proof.
  assert (Hiter : forall m, Nat.iter (S m) (authorize ua add_auth) r
                  = Nat.iter (S m) (authorize_rest ua add_auth) (quote_headers r)).
  { induction m as [|m IH].
    - reflexivity.
    - change (Nat.iter (S (S m)) (authorize ua add_auth) r)
        with (authorize ua add_auth (Nat.iter (S m) (authorize ua add_auth) r)).
      rewrite IH. unfold authorize.
      rewrite quote_headers_already.
      + reflexivity.
      + apply iter_rest_quoted, quote_headers_quoted. }
  split; [apply Hiter | apply (Hiter 1%nat)].
Qed.

(** Quoting happens on the first call: a space in a header value is
    encoded once, and a second [authorize] leaves it so. *)
Example authorize_twice_space :
  let r := mkRequest "POST" "/" [("X-Note"%string, HText "a b")] "{}" false in
  let auth := authorize "TxBoto/0.1.2" headers in
  dict_get "X-Note" (headers (auth (auth r))) = Some (HText "a%20b").
Proof. vm_compute. reflexivity. Qed.

End RequestClaims.

(* ------------------------------------------------------------------ *)
(** ** [Layer1.batch_get_item] *)

Module Layer1Claims.
Import Py Layer1Ops.

(** C10: with a falsy [request_items] ([None] or an empty dict),
    [batch_get_item] returns [{}] without calling [make_request]. *)
Theorem batch_get_item_empty_no_request request_items object_hook
    (Hfalsy : truthy request_items = false) :
  batch_get_item request_items object_hook = Ret (JObject [])
  /\ forall fuel answer,
       requests_made fuel answer (batch_get_item request_items object_hook) = O.
Proof.
  unfold batch_get_item. rewrite Hfalsy. simpl.
  split; [reflexivity|]. intros [|fuel] answer; reflexivity.
Qed.

Lemma batch_get_item_empty_no_request_witness :
  batch_get_item (Some []) None = Ret (JObject []).
Proof.
  exact (proj1 (batch_get_item_empty_no_request (Some []) None eq_refl)).
Defined.

(** A non-empty [request_items] makes one request. *)
Example batch_get_item_nonempty :
  requests_made 5 (JObject [])
    (batch_get_item (Some [("Table"%string, JObject [])]) None) = 1%nat.
Proof. reflexivity. Qed.

End Layer1Claims.
(* ------------------------------------------------------------------ *)
(** ** Runs of the execution loop *)

Module MexeRunFacts.
Import Py Mexe MexeRuns ConfigFacts.






End MexeRunFacts.

Module MexeRunClaims.
Import Py Mexe MexeRuns MexeRunFacts MexeInputs.







End MexeRunClaims.

(* ------------------------------------------------------------------ *)
(** ** The throughput backoff curve *)

Module BackoffMore.
Import Backoff BackoffFacts.
Open Scope Q_scope.

(** [Layer1._exponential_time] never decreases as the index grows, and
    never exceeds a non-negative cap: the throughput delays of
    successive retries form a non-decreasing sequence up to the cap. *)
Theorem exponential_time_monotone (max_retry_delay : Q) (i j : Z)
    (Hcap : 0 <= max_retry_delay) (Hi : (0 <= i)%Z) (Hij : (i <= j)%Z) :
  _exponential_time max_retry_delay i <= _exponential_time max_retry_delay j
  /\ _exponential_time max_retry_delay j <= max_retry_delay.
Proof.
  assert (Hnn : forall k, 0 <= _exponential_time max_retry_delay k).
  { intro k. unfold _exponential_time. destruct (Z.eqb k 0); [apply Qle_refl|].
    apply py_min_glb; [|exact Hcap].
    apply Qmult_le_0_compat; [discriminate | apply pow2_nonneg]. }
  split.
  - unfold _exponential_time at 1. destruct (Z.eqb i 0) eqn:Ei; [apply Hnn|].
    apply Z.eqb_neq in Ei.
    unfold _exponential_time.
    replace (Z.eqb j 0) with false by (symmetry; apply Z.eqb_neq; lia).
    apply py_min_mono_l. rewrite !(Qmult_comm (1 # 20)).
    apply Qmult_le_compat_r; [|discriminate].
    apply Qpower_le_compat_l; [exact Hij | discriminate].
  - unfold _exponential_time. destruct (Z.eqb j 0); [exact Hcap|].
    apply py_min_le_r.
Qed.

Lemma exponential_time_monotone_witness :
  _exponential_time default_max_retry_delay 3 <= _exponential_time default_max_retry_delay 7.
Proof.
  apply (exponential_time_monotone default_max_retry_delay 3 7);
    [vm_compute; discriminate | lia | lia].
Defined.

End BackoffMore.

(* ------------------------------------------------------------------ *)
(** ** More of the DynamoDB retry handler *)

Module DynamoMore.
Import Py Dynamo DynamoInputs DynamoFacts DynamoFacts2.



(** A 400 whose [__type] names neither a throughput nor an
    expired-token error makes [Layer1._retry_handler] raise, leaving
    the connection as it was: [DynamoDBConditionalCheckFailedError] when
    [__type] contains [ConditionalCheckFailedException], otherwise
    [DynamoDBValidationError] when it contains [ValidationException],
    otherwise [DynamoDBResponseError]; the crc32 check is not reached. *)
Theorem retry_handler_400_other_raises d r i ns c kv t
    (H400 : status r = 400%Z) (Hjson : json_loads d (read r) = Some (JObject kv))
    (Htype : assoc_get "__type" kv = Some (JString t))
    (Ht : contains ThruputError t = false) (He : contains SessionExpiredError t = false) :
  _retry_handler d r i ns c
  = (inl (if contains ConditionalCheckFailedError t
          then DynamoDBConditionalCheckFailedError (status r) (dreason r) (JObject kv)
          else if contains ValidationError t
          then DynamoDBValidationError (status r) (dreason r) (JObject kv)
          else DynamoDBResponseError (status r) (dreason r) (JObject kv)), c).
Proof.
  rewrite retry_handler_unfold. unfold handle_400.
  replace (Z.eqb (status r) 400) with true by (symmetry; now apply Z.eqb_eq).
  unfold bind, lift. rewrite Hjson. cbv match beta.
  rewrite Htype. unfold py_in. rewrite Ht, He.
  destruct (contains ConditionalCheckFailedError t); [reflexivity|].
  destruct (contains ValidationError t); reflexivity.
Qed.

Lemma retry_handler_400_other_raises_witness :
  fst (_retry_handler (denv_of (type_body "com.amazon.coral.validate#ValidationException"))
         (resp 400 None) 0 0 conn0)
  = inl (DynamoDBValidationError 400 "Bad Request"
           (type_body "com.amazon.coral.validate#ValidationException")).
Proof.
  rewrite (retry_handler_400_other_raises
             (denv_of (type_body "com.amazon.coral.validate#ValidationException"))
             (resp 400 None) 0 0 conn0
             [("__type"%string, JString "com.amazon.coral.validate#ValidationException")]
             "com.amazon.coral.validate#ValidationException");
    reflexivity.
Defined.

(** A 400 whose body is not JSON, is JSON but not an object, or is an
    object without [__type], makes [Layer1._retry_handler] raise
    [ValueError], [AttributeError] ([get]) or [TypeError] ([in None])
    respectively, not a DynamoDB error; the connection is unchanged. *)
Theorem retry_handler_400_malformed_body d r i ns c
    (H400 : status r = 400%Z) :
  (json_loads d (read r) = None ->
   _retry_handler d r i ns c = (inl (ValueError "json.loads"), c))
  /\ (forall v, json_loads d (read r) = Some v -> (forall kv, v <> JObject kv) ->
      _retry_handler d r i ns c = (inl (AttributeError "get"), c))
  /\ (forall kv, json_loads d (read r) = Some (JObject kv) ->
      assoc_get "__type" kv = None ->
      _retry_handler d r i ns c = (inl (TypeError "argument is not iterable"), c)).
Proof.
  rewrite retry_handler_unfold. unfold handle_400.
  replace (Z.eqb (status r) 400) with true by (symmetry; now apply Z.eqb_eq).
  unfold bind, lift.
  split; [|split].
  - intro Hj. rewrite Hj. reflexivity.
  - intros v Hj Hv. rewrite Hj. cbv match beta.
    destruct v; try reflexivity. exfalso. eapply Hv. reflexivity.
  - intros kv Hj Ht. rewrite Hj. cbv match beta. rewrite Ht. reflexivity.
Qed.

Lemma retry_handler_400_malformed_body_witness :
  _retry_handler (mkDenv (fun _ => None) fresh_provider Config.NoSection)
    (resp 400 None) 0 0 conn0
  = (inl (ValueError "json.loads"), conn0).
Proof.
  destruct (retry_handler_400_malformed_body
              (mkDenv (fun _ => None) fresh_provider Config.NoSection)
              (resp 400 None) 0 0 conn0) as [H _]; [reflexivity|].
  apply H. reflexivity.
Defined.

(** With [num_retries >= 2] on the connection (6 as
    [AWSAuthConnection.__init__] sets it), every retry that
    [Layer1._retry_handler] asks for carries a larger index than the one
    it was given: [i + 1], [i + 2] (a crc32 mismatch after a throughput
    error) or [i + num_retries - 1]. *)
Theorem retry_handler_raises_index d r i ns c m i' ns'
    (Hn : (2 <= num_retries c)%Z)
    (H : fst (_retry_handler d r i ns c) = inr (Some (m, i', ns'))) :
  (i < i')%Z
  /\ (i' = (i + 1)%Z \/ i' = (i + 2)%Z \/ i' = (i + num_retries c - 1)%Z).
Proof.
  pose proof (retry_handler_index d r i ns c m i' ns' H). split; [lia | exact H0].
Qed.

Lemma retry_handler_raises_index_witness :
  (0 < 5)%Z /\ (5 = 0 + 1 \/ 5 = 0 + 2 \/ 5 = 0 + num_retries conn0 - 1)%Z.
Proof.
  apply (retry_handler_raises_index (denv_of (type_body SessionExpiredError))
           (resp 400 None) 0 0 conn0 MsgRenewing 5 0); [vm_compute; discriminate | reflexivity].
Defined.

End DynamoMore.
(* ------------------------------------------------------------------ *)
(** ** Header quoting, [authorize], [HTTPRequest.__init__] and
    [send_request] *)

Module RequestFacts.
Import Request HttpRequest QuoteChars.
Local Open Scope string_scope.

Lemma str_existsb_app f a b :
  str_existsb f (a ++ b) = str_existsb f a || str_existsb f b.
Proof.
  induction a as [|c a IH]; simpl; [reflexivity|]. rewrite IH. apply orb_assoc.
Qed.

Lemma quote_safe_ascii_table :
  forallb (fun n => implb (quote_safe (ascii_of_nat n)) (Nat.ltb n 128)) (seq 0 256) = true.
Proof. vm_compute. reflexivity. Qed.

Lemma quote_safe_lt_128 c : quote_safe c = true -> (nat_of_ascii c < 128)%nat.
Proof.
  intro H. pose proof quote_safe_ascii_table as T.
  rewrite forallb_forall in T.
  assert (Hin : In (nat_of_ascii c) (seq 0 256)).
  { apply in_seq. pose proof (nat_ascii_bounded c). lia. }
  specialize (T _ Hin). rewrite ascii_nat_embedding, H in T.
  simpl in T. now apply Nat.ltb_lt.
Qed.

Lemma hex_digit_table :
  forallb (fun n => quote_safe (hex_digit n)) (seq 0 16) = true.
Proof. vm_compute. reflexivity. Qed.

Lemma hex_digit_safe n : (n < 16)%nat -> quote_safe (hex_digit n) = true.
Proof.
  intro H. pose proof hex_digit_table as T. rewrite forallb_forall in T.
  apply T, in_seq. lia.
Qed.

Lemma percent_safe : quote_safe "%" = true.
Proof. reflexivity. Qed.

Lemma quote_cons c s :
  quote (String c s)
  = if quote_safe c then String c (quote s)
    else String "%" (String (hex_digit (nat_of_ascii c / 16))
                       (String (hex_digit (nat_of_ascii c mod 16)) (quote s))).
Proof. reflexivity. Qed.

Lemma quote_all_safe s : all_safe (quote s) = true.
Proof.
  induction s as [|c s IH]; [reflexivity|].
  rewrite quote_cons. destruct (quote_safe c) eqn:E; cbn [all_safe].
  - rewrite E, IH. reflexivity.
  - rewrite IH, percent_safe.
    pose proof (nat_ascii_bounded c) as Hb.
    rewrite (hex_digit_safe (nat_of_ascii c / 16)) by (apply Nat.Div0.div_lt_upper_bound; lia).
    rewrite (hex_digit_safe (nat_of_ascii c mod 16)) by (apply Nat.mod_upper_bound; lia).
    reflexivity.
Qed.

Lemma quote_id_on_safe s : all_safe s = true -> quote s = s.
Proof.
  induction s as [|c s IH]; [reflexivity|].
  cbn [all_safe]. intro H. apply andb_prop in H as [Hc Hs].
  rewrite quote_cons, Hc, IH by exact Hs. reflexivity.
Qed.

Lemma utf8_id_on_safe s : all_safe s = true -> utf8_encode s = s.
Proof.
  induction s as [|c s IH]; simpl; [reflexivity|].
  intro H. apply andb_prop in H as [Hc Hs].
  apply quote_safe_lt_128, Nat.ltb_lt in Hc. rewrite Hc, IH by exact Hs. reflexivity.
Qed.

(** Header dicts. *)
Lemma headers_set_headers h r : headers (set_headers h r) = h.
Proof. reflexivity. Qed.

Lemma body_set_headers h r : body (set_headers h r) = body r.
Proof. reflexivity. Qed.

Lemma dict_get_set_same k v d : dict_get k (dict_set k v d) = Some v.
Proof.
  induction d as [|[k' v'] d IH]; simpl.
  - now rewrite String.eqb_refl.
  - destruct (String.eqb k k') eqn:E; simpl.
    + now rewrite String.eqb_refl.
    + now rewrite E.
Qed.

Lemma dict_get_set_other k k' v d : k <> k' -> dict_get k (dict_set k' v d) = dict_get k d.
Proof.
  intro Hne. induction d as [|[k2 v2] d IH]; simpl.
  - apply String.eqb_neq in Hne. now rewrite Hne.
  - destruct (String.eqb k' k2) eqn:E; simpl.
    + apply String.eqb_eq in E. subst k2.
      apply String.eqb_neq in Hne. now rewrite Hne.
    + destruct (String.eqb k k2); auto.
Qed.

Lemma dict_get_none_not_in k d : ~ In k (map fst d) -> dict_get k d = None.
Proof.
  induction d as [|[k' v] d IH]; simpl; [reflexivity|].
  intro H. destruct (String.eqb k k') eqn:E.
  - apply String.eqb_eq in E. subst. tauto.
  - apply IH. tauto.
Qed.

Lemma dict_get_del_same k d : NoDup (map fst d) -> dict_get k (dict_del k d) = None.
Proof.
  induction d as [|[k' v] d IH]; simpl; [reflexivity|].
  intro Hnd. inversion Hnd as [|x l Hni Hnd']; subst.
  destruct (String.eqb k k') eqn:E.
  - apply String.eqb_eq in E. subst. now apply dict_get_none_not_in.
  - simpl. rewrite E. now apply IH.
Qed.

Lemma dict_get_del_other k k' d : k <> k' -> dict_get k (dict_del k' d) = dict_get k d.
Proof.
  intro Hne. induction d as [|[k2 v] d IH]; simpl; [reflexivity|].
  destruct (String.eqb k' k2) eqn:E.
  - apply String.eqb_eq in E. subst k2.
    apply String.eqb_neq in Hne. now rewrite Hne.
  - simpl. destruct (String.eqb k k2); auto.
Qed.

Lemma dict_get_map_encode k h :
  dict_get k (map (fun kv : string * hval => (fst kv, encode_value (snd kv))) h)
  = option_map encode_value (dict_get k h).
Proof.
  induction h as [|[k' v] h IH]; simpl; [reflexivity|].
  destruct (String.eqb k k'); auto.
Qed.

Lemma map_encode_keys h :
  map fst (map (fun kv : string * hval => (fst kv, encode_value (snd kv))) h) = map fst h.
Proof.
  induction h as [|[k v] h IH]; simpl; [reflexivity|]. now rewrite IH.
Qed.

End RequestFacts.

Module RequestMore.
Import Request HttpRequest QuoteChars RequestFacts.
Local Open Scope string_scope.

(** [quote] with the [safe] set of [authorize] is idempotent, and its
    output is ASCII: quoting a quoted value changes nothing, and the
    UTF-8 encoding [send_request] applies to a quoted value leaves its
    bytes as they are. *)
Theorem quote_idempotent_ascii s :
  quote (quote s) = quote s /\ utf8_encode (quote s) = quote s.
Proof.
  split; [apply quote_id_on_safe | apply utf8_id_on_safe]; apply quote_all_safe.
Qed.

(** Whatever headers [add_auth] leaves, after [authorize] the request
    has a [Content-Length] header or a chunked [Transfer-Encoding]; when
    [add_auth] set neither, [Content-Length] is [str(len(body))]. The
    body is not changed. [r1] is the request [add_auth] is given. *)
Theorem authorize_sets_content_length ua add_auth r :
  body (authorize ua add_auth r) = body r
  /\ ((exists v, dict_get "Content-Length" (headers (authorize ua add_auth r)) = Some v)
      \/ is_chunked (dict_get "Transfer-Encoding" (headers (authorize ua add_auth r))) = true)
  /\ (forall r1,
      r1 = set_headers (dict_set "User-Agent" (HText ua) (headers (quote_headers r)))
             (quote_headers r) ->
      dict_get "Content-Length" (add_auth r1) = None ->
      is_chunked (dict_get "Transfer-Encoding" (add_auth r1)) = false ->
      dict_get "Content-Length" (headers (authorize ua add_auth r))
      = Some (HText (str_nat (String.length (body r))))).
Proof.
  assert (Hb : body (quote_headers r) = body r).
  { unfold quote_headers. destruct (_headers_quoted r); reflexivity. }
  unfold authorize, authorize_rest.
  remember (set_headers (dict_set "User-Agent" (HText ua) (headers (quote_headers r)))
              (quote_headers r)) as r1 eqn:E1.
  assert (Hb1 : body r1 = body r) by (subst r1; exact Hb).
  rewrite !headers_set_headers, !body_set_headers.
  destruct (dict_get "Content-Length" (add_auth r1)) as [v|] eqn:Ec.
  - split; [exact Hb1|]. split; [left; exists v; exact Ec|].
    intros r1' -> Hc _. congruence.
  - destruct (is_chunked (dict_get "Transfer-Encoding" (add_auth r1))) eqn:Et.
    + split; [exact Hb1|]. split; [right; exact Et|].
      intros r1' -> _ Ht. congruence.
    + rewrite !headers_set_headers, !body_set_headers.
      split; [exact Hb1|]. split; [left; eexists; apply dict_get_set_same|].
      intros r1' -> _ _. rewrite dict_get_set_same, Hb1. reflexivity.
Qed.

Lemma authorize_sets_content_length_witness :
  dict_get "Content-Length"
    (headers (authorize "TxBoto/0.1.2" headers (mkRequest "POST" "/" [] "{}" false)))
  = Some (HText "2").
Proof.
  destruct (authorize_sets_content_length "TxBoto/0.1.2" headers
              (mkRequest "POST" "/" [] "{}" false)) as [_ [_ H]].
  apply (H (set_headers (dict_set "User-Agent" (HText "TxBoto/0.1.2")
                           (headers (quote_headers (mkRequest "POST" "/" [] "{}" false))))
              (quote_headers (mkRequest "POST" "/" [] "{}" false))));
    reflexivity.
Defined.

(** [HTTPRequest.__init__] on headers with distinct keys: the request
    keeps a chunked [Transfer-Encoding] only when the method is [PUT];
    every other header is kept as given, and [auth_path] defaults to
    [path]. *)
Theorem init_drops_chunked_unless_put method protocol host port path auth_path params
    headers body (Hnd : NoDup (map fst headers)) :
  is_chunked (dict_get "Transfer-Encoding"
                (hr_headers (init method protocol host port path auth_path params headers body)))
  = is_chunked (dict_get "Transfer-Encoding" headers) && String.eqb method "PUT"
  /\ (forall k, k <> "Transfer-Encoding" ->
      dict_get k (hr_headers (init method protocol host port path auth_path params headers body))
      = dict_get k headers)
  /\ (auth_path = None ->
      HttpRequest.auth_path (init method protocol host port path auth_path params headers body)
      = path).
Proof.
  unfold init. cbn [hr_headers HttpRequest.auth_path].
  destruct (is_chunked (dict_get "Transfer-Encoding" headers)) eqn:Ec.
  - destruct headers as [|kv0 hs]; [discriminate|].
    destruct (String.eqb method "PUT") eqn:Em; simpl andb; cbv iota.
    + split; [now rewrite Ec|]. split; [reflexivity|]. intros ->. reflexivity.
    + split; [rewrite dict_get_del_same by exact Hnd; reflexivity|].
      split; [intros k Hk; now apply dict_get_del_other|]. intros ->. reflexivity.
  - assert (Hif : forall b, b && false && negb (String.eqb method "PUT") = false)
      by (intro b; now destruct b).
    rewrite Hif. cbv iota.
    split; [now rewrite Ec|]. split; [reflexivity|]. intros ->. reflexivity.
Qed.

Lemma init_drops_chunked_unless_put_witness :
  is_chunked (dict_get "Transfer-Encoding"
    (hr_headers (init "POST" "https" "example.com" 443 "/" None []
                   [("Transfer-Encoding", HText "chunked"); ("Host", HText "example.com")] "")))
  = false.
Proof.
  destruct (init_drops_chunked_unless_put "POST" "https" "example.com" 443 "/" None []
              [("Transfer-Encoding", HText "chunked"); ("Host", HText "example.com")] "")
    as [H _].
  - repeat constructor; simpl; intuition discriminate.
  - rewrite H. reflexivity.
Defined.

(** The headers [send_request] hands to treq, for a request whose
    header keys are distinct: never [Content-Length]; every other header
    of the request, with text values encoded to UTF-8 bytes. *)
Theorem send_headers_without_content_length h (Hnd : NoDup (map fst h)) :
  dict_get "Content-Length" (send_headers h) = None
  /\ (forall k, k <> "Content-Length" ->
      dict_get k (send_headers h) = option_map encode_value (dict_get k h)).
Proof.
  unfold send_headers.
  destruct (dict_get "Content-Length" h) eqn:E.
  - split.
    + apply dict_get_del_same. now rewrite map_encode_keys.
    + intros k Hk. rewrite dict_get_del_other by exact Hk. apply dict_get_map_encode.
  - split.
    + rewrite dict_get_map_encode, E. reflexivity.
    + intros k Hk. apply dict_get_map_encode.
Qed.

Lemma send_headers_without_content_length_witness :
  dict_get "Content-Length"
    (send_headers [("Content-Length", HText "2"); ("Host", HText "example.com")])
  = None.
Proof.
  destruct (send_headers_without_content_length
              [("Content-Length", HText "2"); ("Host", HText "example.com")]) as [H1 _].
  - repeat constructor; simpl; intuition discriminate.
  - exact H1.
Defined.

End RequestMore.
(* ------------------------------------------------------------------ *)
(** ** [get_path] *)

Module PathFacts.
Import Request Paths.
Local Open Scope string_scope.

Lemma str_existsb_app' f a b :
  str_existsb f (a ++ b) = str_existsb f a || str_existsb f b.
Proof.
  induction a as [|c a IH]; simpl; [reflexivity|]. rewrite IH. apply orb_assoc.
Qed.

Lemma split_slash_nonnil s : split_slash s <> [].
Proof.
  destruct s as [|c s]; cbn [split_slash]; [discriminate|].
  destruct (Ascii.eqb c "/"); [discriminate|].
  destruct (split_slash s); discriminate.
Qed.

Lemma filter_empty_head l : filter nonempty ("" :: l) = filter nonempty l.
Proof. reflexivity. Qed.

Lemma split_slash_slash s : split_slash (String "/" s) = "" :: split_slash s.
Proof. reflexivity. Qed.

Lemma split_slash_app a b :
  split_slash (a ++ String "/" b) = (split_slash a ++ split_slash b)%list.
Proof.
  induction a as [|c a IH]; [reflexivity|].
  cbn [append split_slash]. rewrite IH. destruct (Ascii.eqb c "/"); [reflexivity|].
  destruct (split_slash a) as [|p ps] eqn:E;
    [exfalso; exact (split_slash_nonnil a E) | reflexivity].
Qed.

Lemma split_slash_no_slash x :
  str_existsb (Ascii.eqb "/") x = false -> split_slash x = [x].
Proof.
  induction x as [|c x IH]; [reflexivity|].
  cbn [str_existsb split_slash]. intro H. apply orb_false_iff in H as [Hc Hx].
  rewrite Ascii.eqb_sym, Hc, IH by exact Hx. reflexivity.
Qed.

(** The pieces of a split are slash-free, and keep any property of
    the characters of the whole. *)
Lemma split_pieces_no_slash s :
  forall x, In x (split_slash s) -> str_existsb (Ascii.eqb "/") x = false.
Proof.
  induction s as [|c s IH]; cbn [split_slash].
  - intros x [<-|[]]. reflexivity.
  - destruct (Ascii.eqb c "/") eqn:Ec.
    + intros x [<-|Hx]; [reflexivity | now apply IH].
    + destruct (split_slash s) as [|q qs] eqn:E.
      * intros x [<-|[]]. cbn [str_existsb]. rewrite Ascii.eqb_sym, Ec. reflexivity.
      * intros x [<-|Hx].
        -- cbn [str_existsb]. rewrite Ascii.eqb_sym, Ec. apply IH. left. reflexivity.
        -- apply IH. right. exact Hx.
Qed.

Lemma split_pieces_keep f s :
  str_existsb f s = false -> forall x, In x (split_slash s) -> str_existsb f x = false.
Proof.
  induction s as [|c s IH]; cbn [split_slash str_existsb].
  - intros _ x [<-|[]]. reflexivity.
  - intro H. apply orb_false_iff in H as [Hc Hs].
    destruct (Ascii.eqb c "/").
    + intros x [<-|Hx]; [reflexivity | now apply IH].
    + destruct (split_slash s) as [|q qs] eqn:E.
      * intros x [<-|[]]. cbn [str_existsb]. now rewrite Hc.
      * intros x [<-|Hx].
        -- cbn [str_existsb]. rewrite Hc. apply IH; [exact Hs | left; reflexivity].
        -- apply IH; [exact Hs | right; exact Hx].
Qed.

Lemma filter_split_join E :
  (forall x, In x E -> nonempty x = true /\ str_existsb (Ascii.eqb "/") x = false) ->
  filter nonempty (split_slash (join_slash E)) = E.
Proof.
  induction E as [|x E IH]; intro HE; [reflexivity|].
  destruct (HE x (or_introl eq_refl)) as [Hne Hx].
  destruct E as [|y E].
  - cbn [join_slash]. rewrite split_slash_no_slash by exact Hx. cbn [filter]. now rewrite Hne.
  - change (join_slash (x :: y :: E)) with (x ++ String "/" (join_slash (y :: E))).
    rewrite split_slash_app, split_slash_no_slash by exact Hx.
    rewrite filter_app. cbn [filter]. rewrite Hne, IH; [reflexivity|].
    intros z Hz. apply HE. right. exact Hz.
Qed.

Lemma join_keep f E :
  (forall x, In x E -> str_existsb f x = false) -> f "/"%char = false ->
  str_existsb f (join_slash E) = false.
Proof.
  intros HE Hf. induction E as [|x E IH]; [reflexivity|].
  destruct E as [|y E].
  - apply HE. left. reflexivity.
  - change (join_slash (x :: y :: E)) with (x ++ String "/" (join_slash (y :: E))).
    rewrite str_existsb_app'. cbn [str_existsb]. rewrite Hf, IH.
    + rewrite HE by (left; reflexivity). reflexivity.
    + intros z Hz. apply HE. right. exact Hz.
Qed.

Lemma last_char_none s : last_char s = None -> s = "".
Proof.
  induction s as [|c s IH]; [reflexivity|].
  destruct s as [|c' s]; cbn [last_char]; [discriminate|].
  intro H. specialize (IH H). discriminate.
Qed.

Lemma last_char_cons c b : b <> "" -> last_char (String c b) = last_char b.
Proof. destruct b; [contradiction | reflexivity]. Qed.

Lemma last_char_app a b : b <> "" -> last_char (a ++ b) = last_char b.
Proof.
  intro Hb. induction a as [|c a IH]; [reflexivity|].
  cbn [append]. rewrite last_char_cons; [exact IH|].
  destruct a; [exact Hb | discriminate].
Qed.

Lemma last_char_nonslash x :
  x <> "" -> str_existsb (Ascii.eqb "/") x = false ->
  exists c, last_char x = Some c /\ Ascii.eqb c "/" = false.
Proof.
  induction x as [|c x IH]; [contradiction|].
  intros _ H. cbn [str_existsb] in H. apply orb_false_iff in H as [Hc Hx].
  destruct x as [|c' x].
  - exists c. split; [reflexivity|]. now rewrite Ascii.eqb_sym.
  - rewrite last_char_cons by discriminate. apply IH; [discriminate | exact Hx].
Qed.

Lemma join_last E :
  E <> [] ->
  (forall x, In x E -> nonempty x = true /\ str_existsb (Ascii.eqb "/") x = false) ->
  exists c, last_char (join_slash E) = Some c /\ Ascii.eqb c "/" = false.
Proof.
  induction E as [|x E IH]; intros Hnil HE; [contradiction|].
  destruct E as [|y E].
  - destruct (HE x (or_introl eq_refl)) as [Hne Hx].
    apply last_char_nonslash; [|exact Hx].
    intro H. cbn [join_slash] in H. rewrite H in Hne. discriminate.
  - change (join_slash (x :: y :: E)) with (x ++ String "/" (join_slash (y :: E))).
    destruct IH as [c [Hc Hs]]; [discriminate | intros z Hz; apply HE; right; exact Hz|].
    exists c. split; [|exact Hs].
    rewrite last_char_app by discriminate.
    rewrite last_char_cons; [exact Hc|].
    intro H. rewrite H in Hc. discriminate.
Qed.

(** A path part with no non-empty segment is all slashes. *)
Lemma no_segments_slash p lc :
  filter nonempty (split_slash p) = [] -> last_char p = Some lc -> lc = "/"%char.
Proof.
  induction p as [|c p IH]; [discriminate|].
  cbn [split_slash]. destruct (Ascii.eqb c "/") eqn:Ec.
  - apply Ascii.eqb_eq in Ec. subst c. rewrite filter_empty_head. intros Hf Hl.
    destruct p as [|c' p].
    + cbn [last_char] in Hl. congruence.
    + apply IH; [exact Hf | exact Hl].
  - destruct (split_slash p) as [|q qs]; simpl; discriminate.
Qed.

Lemma split_q_fst_no_q s : str_existsb (Ascii.eqb "?") (fst (split_q s)) = false.
Proof.
  induction s as [|c s IH]; [reflexivity|].
  cbn [split_q]. destruct (Ascii.eqb c "?") eqn:Ec; [reflexivity|].
  destruct (split_q s) as [a q]. cbn [fst str_existsb] in *. rewrite Ascii.eqb_sym, Ec. exact IH.
Qed.

Lemma split_q_snd s q : snd (split_q s) = Some q -> exists t, q = String "?" t.
Proof.
  induction s as [|c s IH]; [discriminate|].
  cbn [split_q]. destruct (Ascii.eqb c "?") eqn:Ec.
  - apply Ascii.eqb_eq in Ec. subst c. cbn [snd]. intro H. injection H as <-. eexists. reflexivity.
  - destruct (split_q s) as [a q']. cbn [snd] in *. exact IH.
Qed.

Lemma split_q_no_q_app a b :
  str_existsb (Ascii.eqb "?") a = false ->
  split_q (a ++ b) = (a ++ fst (split_q b), snd (split_q b)).
Proof.
  induction a as [|c a IH]; cbn [append split_q str_existsb].
  - intros _. destruct (split_q b); reflexivity.
  - intro H. apply orb_false_iff in H as [Hc Ha].
    rewrite Ascii.eqb_sym, Hc, IH by exact Ha. reflexivity.
Qed.

Lemma split_q_no_q a :
  str_existsb (Ascii.eqb "?") a = false -> split_q a = (a, None).
Proof.
  induction a as [|c a IH]; cbn [split_q str_existsb]; [reflexivity|].
  intro H. apply orb_false_iff in H as [Hc Ha].
  rewrite Ascii.eqb_sym, Hc, IH by exact Ha. reflexivity.
Qed.

Lemma append_empty_r s : s ++ "" = s.
Proof. induction s as [|c s IH]; simpl; [reflexivity | now rewrite IH]. Qed.

Lemma get_path_true_unfold sp s :
  get_path true sp s
  = let (p, params) := split_q s in
    match last_char p with
    | None => None
    | Some lc =>
        let need_trailing := Ascii.eqb lc "/" in
        let path_elements := filter nonempty (split_slash sp ++ split_slash p)%list in
        let path1 := String "/" (join_slash path_elements) in
        let path2 :=
          if negb (match last_char path1 with
                   | Some c => Ascii.eqb c "/"
                   | None => false
                   end) && need_trailing
          then path1 ++ "/" else path1 in
        Some (match params with
              | Some q => if nonempty q then path2 ++ q else path2
              | None => path2
              end)
    end.
Proof. reflexivity. Qed.

(** [get_path] raises [IndexError] exactly in the suppressing mode on a
    path whose part before ['?'] is empty. *)
Lemma get_path_isNone s sp path :
  match get_path s sp path with None => true | Some _ => false end
  = s && String.eqb (fst (split_q path)) "".
Proof.
  destruct s; [|reflexivity].
  rewrite get_path_true_unfold.
  destruct (split_q path) as [p params]. cbn [fst].
  destruct (last_char p) as [lc|] eqn:El.
  - destruct p; [discriminate | reflexivity].
  - apply last_char_none in El. subst p. reflexivity.
Qed.

End PathFacts.

Module PathClaims.
Import Request Paths PathFacts.
Local Open Scope string_scope.

(** With [suppress_consec_slashes] (the default), [get_path] raises
    [IndexError] exactly when the part of [path] before the first [?] is
    empty, e.g. for [''] or ['?versions']; any other path gives a result
    that starts with a slash. *)
Theorem get_path_index_error sp path :
  (get_path true sp path = None <-> fst (split_q path) = "")
  /\ forall n, get_path true sp path = Some n -> exists t, n = String "/" t.
Proof.
  rewrite get_path_true_unfold.
  destruct (split_q path) as [p params]. simpl fst.
  destruct (last_char p) as [lc|] eqn:El.
  - split.
    + split; [discriminate|]. intros ->. discriminate.
    + intros n Hn. injection Hn as <-. cbv zeta.
      destruct (negb _ && _); destruct params as [q|];
        try destruct (nonempty q); eexists; reflexivity.
  - split.
    + split; [intros _; now apply last_char_none | reflexivity].
    + discriminate.
Qed.

Lemma get_path_index_error_witness :
  get_path true "/" "?versions" = None.
Proof. apply (proj2 (proj1 (get_path_index_error "/" "?versions"))). reflexivity. Defined.

(** [get_path] with [suppress_consec_slashes] only depends on the
    normalised form of its argument: normalising a path first (with the
    connection path ['/']) and then with any connection path gives what
    normalising the path directly gives. In particular with the
    connection path ['/'] it is idempotent. *)
Theorem get_path_normalised_stable sp path n
    (Hn : get_path true "/" path = Some n) :
  get_path true sp n = get_path true sp path.
Proof.
  rewrite get_path_true_unfold in Hn.
  pose proof (split_q_fst_no_q path) as Hpq.
  pose proof (split_q_snd path) as Hpar.
  destruct (split_q path) as [p params] eqn:Eq. simpl fst in Hpq. simpl snd in Hpar.
  destruct (last_char p) as [lc|] eqn:El; [|discriminate].
  apply (f_equal (fun o => match o with Some v => v | None => n end)) in Hn.
  cbv beta iota zeta in Hn.
  rewrite filter_app in Hn.
  change (filter nonempty (split_slash "/")) with (@nil string) in Hn.
  rewrite app_nil_l in Hn.
  set (E := filter nonempty (split_slash p)) in Hn.
  set (need := Ascii.eqb lc "/") in Hn.
  assert (HE : forall x, In x E ->
            (nonempty x = true /\ str_existsb (Ascii.eqb "/") x = false)
            /\ str_existsb (Ascii.eqb "?") x = false).
  { intros x Hx. apply filter_In in Hx as [Hx Hne].
    split; [split; [exact Hne | now apply (split_pieces_no_slash p)]|].
    now apply (split_pieces_keep _ p). }
  assert (HE1 : forall x, In x E -> nonempty x = true /\ str_existsb (Ascii.eqb "/") x = false)
    by (intros x Hx; apply HE; exact Hx).
  assert (Hjq : str_existsb (Ascii.eqb "?") (join_slash E) = false)
    by (apply join_keep; [intros x Hx; apply HE; exact Hx | reflexivity]).
  assert (Hjs : filter nonempty (split_slash (join_slash E)) = E)
    by (apply filter_split_join; exact HE1).
  (* the last character of the normalised path part *)
  assert (Hlast1 : match last_char (String "/" (join_slash E)) with
                   | Some c => Ascii.eqb c "/"
                   | None => false
                   end = true -> need = true).
  { destruct E as [|x E'] eqn:HEq.
    - intros _. unfold need.
      assert (Hlc : lc = "/"%char) by (apply (no_segments_slash p); [exact HEq | exact El]).
      now rewrite Hlc.
    - destruct (join_last (x :: E')) as [c [Hc Hs]]; [discriminate | exact HE1|].
      rewrite last_char_cons by (intro H; rewrite H in Hc; discriminate).
      rewrite Hc, Hs. discriminate. }
  set (path1 := String "/" (join_slash E)) in Hn, Hlast1.
  set (path2 := if negb (match last_char path1 with
                         | Some c => Ascii.eqb c "/"
                         | None => false
                         end) && need then path1 ++ "/" else path1) in Hn.
  assert (H2q : str_existsb (Ascii.eqb "?") path2 = false).
  { unfold path2, path1.
    destruct (negb _ && _); simpl; [rewrite str_existsb_app'; simpl|]; rewrite Hjq; reflexivity. }
  assert (Hsplit2 : split_q n = (path2, params)).
  { subst n. destruct params as [q|].
    - destruct (Hpar q eq_refl) as [t ->].
      change (nonempty (String "?" t)) with true. cbv iota.
      rewrite split_q_no_q_app by exact H2q.
      replace (split_q (String "?" t)) with ("", Some (String "?" t)) by reflexivity.
      cbn [fst snd]. now rewrite append_empty_r.
    - cbv iota. now apply split_q_no_q. }
  assert (Hlast2 : exists lc2, last_char path2 = Some lc2 /\ Ascii.eqb lc2 "/" = need).
  { unfold path2. destruct (match last_char path1 with
                             | Some c => Ascii.eqb c "/"
                             | None => false
                             end) eqn:Hl1.
    - cbn [negb andb].
      destruct (last_char path1) as [c|] eqn:Hc; [|discriminate].
      exists c. split; [reflexivity|]. rewrite Hl1. symmetry. apply Hlast1. reflexivity.
    - destruct need eqn:Hneed; cbn [negb andb].
      + exists "/"%char. split; [|reflexivity].
        apply last_char_app. discriminate.
      + destruct (last_char path1) as [c|] eqn:Hc.
        * exists c. split; [reflexivity | exact Hl1].
        * exfalso. apply last_char_none in Hc. discriminate. }
  assert (Hsegs2 : filter nonempty (split_slash path2) = E).
  { unfold path2, path1. destruct (negb _ && _).
    - change (String "/" (join_slash E) ++ "/")
        with (String "/" (join_slash E ++ String "/" "")).
      rewrite split_slash_slash, filter_empty_head, split_slash_app, filter_app, Hjs.
      apply app_nil_r.
    - rewrite split_slash_slash, filter_empty_head. exact Hjs. }
  rewrite get_path_true_unfold. rewrite Hsplit2.
  destruct Hlast2 as [lc2 [Hl2 Hneed]]. rewrite Hl2.
  rewrite get_path_true_unfold, Eq, El. cbv zeta.
  rewrite !filter_app, Hsegs2. fold E. rewrite Hneed. fold need. reflexivity.
Qed.

Lemma get_path_normalised_stable_witness :
  get_path true "/base/" "//a//b/?x=1" = get_path true "/base/" "/a/b/?x=1".
Proof.
  symmetry. apply (get_path_normalised_stable "/base/" "//a//b/?x=1" "/a/b/?x=1").
  reflexivity.
Defined.

End PathClaims.

Module PyCallClaims.
Import Py Request HttpRequest Paths PathFacts PyCall.
Local Open Scope string_scope.

(** [Layer1.make_request] never gets into [_mexe]: building the request
    for the path ['/'] cannot raise, whatever the connection, and the
    call then passes the keyword [sender], which [_mexe] does not
    declare, so Python raises [TypeError] while binding the arguments. *)
Theorem layer1_make_request_never_reaches_mexe c target endpoint body :
  layer1_make_request c target endpoint body
  = Raises (TypeError "_mexe() got an unexpected keyword argument 'sender'").
Proof.
  unfold layer1_make_request, build_base_http_request.
  destruct (c_suppress_consec_slashes c); reflexivity.
Qed.

(** [AWSAuthConnection.make_request] never gets into [_mexe] either: it
    raises [IndexError] exactly when slashes are suppressed and the path,
    or the [auth_path] when one is given, is empty before its ['?'];
    otherwise the call passes [sender] and [override_num_retries]
    positionally after the request, so [retry_handler] is filled twice
    and Python raises [TypeError]. *)
Theorem auth_make_request_outcome c method path headers body host auth_path params :
  auth_make_request c method path headers body host auth_path params
  = if c_suppress_consec_slashes c
       && (String.eqb (fst (split_q path)) ""
           || match auth_path with
              | Some a => String.eqb (fst (split_q a)) ""
              | None => false
              end)
    then IndexError
    else Raises (TypeError "_mexe() got multiple values for argument 'retry_handler'").
Proof.
  unfold auth_make_request, build_base_http_request.
  rewrite andb_orb_distrib_r.
  pose proof (get_path_isNone (c_suppress_consec_slashes c) (c_path c) path) as H1.
  destruct (get_path _ _ path) as [p'|]; rewrite <- H1; [|reflexivity].
  destruct auth_path as [a|]; [|rewrite andb_false_r, orb_false_r; reflexivity].
  pose proof (get_path_isNone (c_suppress_consec_slashes c) (c_path c) a) as H2.
  destruct (get_path _ _ a) as [a'|]; rewrite <- H2; reflexivity.
Qed.

End PyCallClaims.

Module QueryConnFacts.
Import QueryConn.

Lemma pget_pset_same k v d : pget k (pset k v d) = Some v.
Proof.
  induction d as [|[k' v'] d IH]; simpl.
  - now rewrite String.eqb_refl.
  - destruct (String.eqb k k') eqn:E; simpl.
    + now rewrite String.eqb_refl.
    + now rewrite E.
Qed.

Lemma pget_pset_other k k' v d : k <> k' -> pget k (pset k' v d) = pget k d.
Proof.
  intro Hne. induction d as [|[k2 v2] d IH]; simpl.
  - apply String.eqb_neq in Hne. now rewrite Hne.
  - destruct (String.eqb k' k2) eqn:E; simpl.
    + apply String.eqb_eq in E. subst k2.
      apply String.eqb_neq in Hne. now rewrite Hne.
    + destruct (String.eqb k k2); auto.
Qed.

End QueryConnFacts.

Module QueryConnClaims.
Import Mexe HttpRequest PyCall Paths PathFacts QueryConn QueryConnFacts MexeFacts MexeInputs.
Local Open Scope string_scope.

(** [AWSQueryConnection.make_request] raises [IndexError] exactly when
    the connection suppresses consecutive slashes and [path] is empty
    before its first ['?'] (as [get_path] does). Otherwise it enters
    [_mexe] with a request whose method is [verb] and whose path is
    [get_path(path)], and with the default [override_num_retries] of 1,
    whatever [num_retries] is configured: at most 2 attempts are made,
    and the run has ended after 3 passes. [Action] (when non-empty) and
    [Version] (when [APIVersion] is non-empty) are among the parameters
    sent; any other parameter is passed through unchanged. *)
Theorem query_make_request_outcome fuel e c api_version action params path verb :
  (c_suppress_consec_slashes c && String.eqb (fst (split_q path)) "" = true ->
   make_request fuel e c api_version action params path verb = QIndexError)
  /\ (c_suppress_consec_slashes c && String.eqb (fst (split_q path)) "" = false ->
      exists r o,
        make_request fuel e c api_version action params path verb = QMexe r o
        /\ o = _mexe fuel e (Some 1%Z) None
        /\ hr_method r = verb
        /\ get_path (c_suppress_consec_slashes c) (c_path c) path = Some (hr_path r)
        /\ (attempts o <= 2)%nat
        /\ ((2 < fuel)%nat -> is_running o = false)
        /\ (action <> "" -> pget "Action" (HttpRequest.params r) = Some action)
        /\ (api_version <> "" -> pget "Version" (HttpRequest.params r) = Some api_version)
        /\ (forall k, k <> "Action" -> k <> "Version" ->
            pget k (HttpRequest.params r)
            = pget k (match params with None => [] | Some p => p end))).
Proof.
  pose proof (get_path_isNone (c_suppress_consec_slashes c) (c_path c) path) as Hp.
  unfold make_request, build_base_http_request.
  destruct (get_path _ _ path) as [p'|]; rewrite <- Hp;
    (split; [intro H; try discriminate H; reflexivity|intro H; try discriminate H]).
  destruct (loop_attempts_bounded fuel e 1 None (mkSt 0 0 None None None) I) as [H1 H2].
  simpl in H1, H2. unfold _mexe. simpl resolve_num_retries.
  set (p0 := match params with None => [] | Some p => p end).
  eexists; eexists. split; [reflexivity|]. cbn [set_params hr_method hr_path HttpRequest.params init].
  split; [reflexivity|]. split; [reflexivity|]. split; [reflexivity|].
  split; [exact H1|]. split; [exact H2|].
  split; [|split].
  - intro Ha. apply String.eqb_neq in Ha. rewrite Ha.
    destruct (String.eqb api_version "").
    + apply pget_pset_same.
    + rewrite pget_pset_other by discriminate. apply pget_pset_same.
  - intro Hv. apply String.eqb_neq in Hv. rewrite Hv. apply pget_pset_same.
  - intros k Ha Hv.
    destruct (String.eqb api_version ""); [|rewrite pget_pset_other by exact Hv];
    (destruct (String.eqb action ""); [reflexivity | now rewrite pget_pset_other]).
Qed.

(** The connection of [AWSQueryConnection.__init__] with its defaults. *)
Lemma query_make_request_outcome_witness :
  make_request 5 (const_env (Received (treq_response 503 "busy")))
    (mkConn "https" "ec2.amazonaws.com" 443 "/" true) "2012-11-05" "DescribeRegions" None
    "" "GET" = QIndexError
  /\ exists r o,
    make_request 5 (const_env (Received (treq_response 503 "busy")))
      (mkConn "https" "ec2.amazonaws.com" 443 "/" true) "2012-11-05" "DescribeRegions" None
      "/" "GET" = QMexe r o
    /\ pget "Action" (HttpRequest.params r) = Some "DescribeRegions".
Proof.
  split.
  - apply (query_make_request_outcome 5 (const_env (Received (treq_response 503 "busy")))
             (mkConn "https" "ec2.amazonaws.com" 443 "/" true) "2012-11-05" "DescribeRegions"
             None "" "GET").
    reflexivity.
  - destruct (query_make_request_outcome 5 (const_env (Received (treq_response 503 "busy")))
                (mkConn "https" "ec2.amazonaws.com" 443 "/" true) "2012-11-05"
                "DescribeRegions" None "/" "GET") as [_ H].
    destruct H as [r [o [Hr [_ [_ [_ [_ [_ [Ha _]]]]]]]]]; [reflexivity|].
    exists r, o. split; [exact Hr|]. apply Ha. discriminate.
Defined.

End QueryConnClaims.

(* ------------------------------------------------------------------ *)
(** ** The DynamoDB table operations *)

Module Layer1TableFacts.
Import Py Layer1Tables.
Local Open Scope string_scope.

Lemma assoc_get_dset_same k v d : assoc_get k (dset k v d) = Some v.
Proof.
  induction d as [|[k' v'] d IH]; cbn [dset assoc_get].
  - now rewrite String.eqb_refl.
  - destruct (String.eqb k k') eqn:E; cbn [assoc_get]; rewrite E; [reflexivity | exact IH].
Qed.

Lemma assoc_get_dset_other k k' v d :
  String.eqb k k' = false -> assoc_get k (dset k' v d) = assoc_get k d.
Proof.
  intro Hk. induction d as [|[k'' v''] d IH]; cbn [dset assoc_get].
  - now rewrite Hk.
  - destruct (String.eqb k' k'') eqn:E; cbn [assoc_get].
    + apply String.eqb_eq in E. subst k''. now rewrite Hk.
    + now rewrite IH.
Qed.

Lemma assoc_get_set_if_same b k v d :
  assoc_get k (set_if b k v d) = if b then Some v else assoc_get k d.
Proof. destruct b; [apply assoc_get_dset_same | reflexivity]. Qed.

Lemma assoc_get_set_if_other b k k' v d :
  String.eqb k k' = false -> assoc_get k (set_if b k' v d) = assoc_get k d.
Proof. intro Hk. destruct b; [now apply assoc_get_dset_other | reflexivity]. Qed.

Lemma py_contains_object x kv :
  py_contains x (JObject kv)
  = Some (match assoc_get x kv with Some _ => true | None => false end).
Proof.
  unfold py_contains. f_equal.
  induction kv as [|[k v] kv IH]; [reflexivity|].
  cbn [existsb assoc_get fst]. destruct (String.eqb x k); [reflexivity | exact IH].
Qed.

Lemma In_dset k v d p : In p (dset k v d) -> p = (k, v) \/ In p d.
Proof.
  induction d as [|[k' v'] d IH]; cbn [dset].
  - intros [<-|[]]. now left.
  - destruct (String.eqb k k') eqn:E; intros [<-|Hp].
    + apply String.eqb_eq in E. subst k'. now left.
    + right. now right.
    + right. now left.
    + destruct (IH Hp); [now left | right; now right].
Qed.

Lemma In_set_if b k v d p :
  In p (set_if b k v d) -> (p = (k, v) /\ b = true) \/ In p d.
Proof.
  destruct b; [|now right]. intro H.
  apply In_dset in H as [H|H]; [now left | now right].
Qed.

(** Takes apart a key/value pair of a chain of conditional writes. *)
Ltac in_writes H :=
  repeat (apply In_set_if in H as [[H ?Hb]|H];
          [injection H as ?Hk ?Hv; subst; eauto 12|]).

(** Rewrites [assoc_get] through a chain of dict writes with literal keys. *)
Ltac assoc_simpl :=
  repeat first
    [ rewrite assoc_get_set_if_same
    | rewrite assoc_get_dset_same
    | rewrite assoc_get_set_if_other by reflexivity
    | rewrite assoc_get_dset_other by reflexivity ];
  cbn [assoc_get String.eqb].

End Layer1TableFacts.

Module Layer1TableClaims.
Import Py Layer1Tables Layer1TableFacts.
Local Open Scope string_scope.

(** [get_item] passes a decoded dict through only when it has an
    ['Item'] key and raises [DynamoDBKeyNotFoundError('Key does not
    exist.')] when it has none; an answer that is [None], a bool or a
    number makes the [in] test raise [TypeError]; whatever it returns is
    the answer itself. *)
Theorem get_item_answer table_name key attributes_to_get consistent_read object_hook :
  let p := get_item table_name key attributes_to_get consistent_read object_hook in
  (forall kv, respond (JObject kv) p
              = match assoc_get "Item" kv with
                | Some _ => ORet (JObject kv)
                | None => ODynamoDBKeyNotFoundError "Key does not exist."
                end)
  /\ (forall b z, respond JNull p = ORaise (TypeError "argument is not iterable")
                  /\ respond (JBool b) p = ORaise (TypeError "argument is not iterable")
                  /\ respond (JNum z) p = ORaise (TypeError "argument is not iterable"))
  /\ (forall result v, respond result p = ORet v -> v = result).
Proof.
  cbv zeta. unfold get_item, respond. split; [|split].
  - intro kv. rewrite py_contains_object. now destruct (assoc_get "Item" kv).
  - intros b z. repeat split.
  - intros result v. destruct (py_contains "Item" result) as [[]|]; try discriminate.
    intro H. injection H as <-. reflexivity.
Qed.

(** The dict [get_item] sends names the table and the key, carries
    ['AttributesToGet'] only when the argument is truthy, and carries
    ['ConsistentRead'] only when [consistent_read] is truthy, then with
    the value [True] whatever the argument was. *)
Theorem get_item_request table_name key attributes_to_get consistent_read object_hook :
  exists data,
    request_of (get_item table_name key attributes_to_get consistent_read object_hook)
      = Some ("GetItem", data)
    /\ assoc_get "TableName" data = Some (JString table_name)
    /\ assoc_get "Key" data = Some key
    /\ assoc_get "AttributesToGet" data
       = (if py_truthy attributes_to_get then Some attributes_to_get else None)
    /\ assoc_get "ConsistentRead" data
       = (if py_truthy consistent_read then Some (JBool true) else None).
Proof.
  eexists. split; [reflexivity|].
  repeat split; assoc_simpl; reflexivity.
Qed.

(** The dict [query] sends always carries ['ScanIndexForward'], as the
    truthiness of [scan_index_forward]; ['Count'] and ['ConsistentRead']
    are either absent or [True]; the table and the hash key are always
    there. The decoded answer is returned unchanged. *)
Theorem query_request table_name hash_key_value range_key_conditions
    attributes_to_get limit consistent_read scan_index_forward
    exclusive_start_key object_hook count :
  let p := query table_name hash_key_value range_key_conditions attributes_to_get
             limit consistent_read scan_index_forward exclusive_start_key
             object_hook count in
  exists data,
    request_of p = Some ("Query", data)
    /\ assoc_get "ScanIndexForward" data = Some (JBool (py_truthy scan_index_forward))
    /\ assoc_get "TableName" data = Some (JString table_name)
    /\ assoc_get "HashKeyValue" data = Some hash_key_value
    /\ (assoc_get "Count" data = None \/ assoc_get "Count" data = Some (JBool true))
    /\ (assoc_get "ConsistentRead" data = None
        \/ assoc_get "ConsistentRead" data = Some (JBool true))
    /\ forall result, respond result p = ORet result.
Proof.
  cbv zeta. eexists. split; [reflexivity|].
  split; [|split; [|split; [|split; [|split]]]].
  - destruct (py_truthy scan_index_forward); assoc_simpl; reflexivity.
  - destruct (py_truthy scan_index_forward); assoc_simpl; reflexivity.
  - destruct (py_truthy scan_index_forward); assoc_simpl; reflexivity.
  - destruct (py_truthy scan_index_forward), (py_truthy count); assoc_simpl; auto.
  - destruct (py_truthy scan_index_forward), (py_truthy consistent_read);
      assoc_simpl; auto.
  - reflexivity.
Qed.

(** [scan] never sends ['ConsistentRead'], ['ScanIndexForward'] or
    ['HashKeyValue']; every key it sends is the table name or one of its
    truthy optional arguments, so with none of them truthy it sends
    nothing but the table name. *)
Theorem scan_request table_name scan_filter attributes_to_get limit
    exclusive_start_key object_hook count :
  exists data,
    request_of (scan table_name scan_filter attributes_to_get limit
                  exclusive_start_key object_hook count) = Some ("Scan", data)
    /\ assoc_get "ConsistentRead" data = None
    /\ assoc_get "ScanIndexForward" data = None
    /\ assoc_get "HashKeyValue" data = None
    /\ (forall k v, In (k, v) data ->
          (k = "TableName" /\ v = JString table_name)
          \/ (k = "ScanFilter" /\ v = scan_filter /\ py_truthy scan_filter = true)
          \/ (k = "AttributesToGet" /\ v = attributes_to_get
              /\ py_truthy attributes_to_get = true)
          \/ (k = "Limit" /\ v = limit /\ py_truthy limit = true)
          \/ (k = "Count" /\ v = JBool true /\ py_truthy count = true)
          \/ (k = "ExclusiveStartKey" /\ v = exclusive_start_key
              /\ py_truthy exclusive_start_key = true)).
Proof.
  eexists. split; [reflexivity|].
  split; [assoc_simpl; reflexivity|].
  split; [assoc_simpl; reflexivity|].
  split; [assoc_simpl; reflexivity|].
  intros k v H. in_writes H.
  destruct H as [H|[]]. injection H as ?Hk ?Hv. subst. eauto 12.
Qed.

(** [put_item], [update_item] and [delete_item] send ['Expected'] and
    ['ReturnValues'] exactly when those arguments are truthy, with the
    argument as value, and return the decoded answer unchanged. *)
Theorem write_item_requests table_name item key attribute_updates expected
    return_values object_hook :
  (exists data,
     request_of (put_item table_name item expected return_values object_hook)
       = Some ("PutItem", data)
     /\ assoc_get "Item" data = Some item
     /\ assoc_get "Expected" data = (if py_truthy expected then Some expected else None)
     /\ assoc_get "ReturnValues" data
        = (if py_truthy return_values then Some return_values else None))
  /\ (exists data,
     request_of (update_item table_name key attribute_updates expected return_values
                   object_hook) = Some ("UpdateItem", data)
     /\ assoc_get "AttributeUpdates" data = Some attribute_updates
     /\ assoc_get "Expected" data = (if py_truthy expected then Some expected else None)
     /\ assoc_get "ReturnValues" data
        = (if py_truthy return_values then Some return_values else None))
  /\ (exists data,
     request_of (delete_item table_name key expected return_values object_hook)
       = Some ("DeleteItem", data)
     /\ assoc_get "Key" data = Some key
     /\ assoc_get "Expected" data = (if py_truthy expected then Some expected else None)
     /\ assoc_get "ReturnValues" data
        = (if py_truthy return_values then Some return_values else None))
  /\ forall result,
       respond result (put_item table_name item expected return_values object_hook)
         = ORet result
       /\ respond result (update_item table_name key attribute_updates expected
                            return_values object_hook) = ORet result
       /\ respond result (delete_item table_name key expected return_values object_hook)
         = ORet result.
Proof.
  split; [|split; [|split]].
  1-3: eexists; split; [reflexivity|]; repeat split; assoc_simpl; reflexivity.
  intro result. repeat split.
Qed.

(** [list_tables] sends only ['Limit'] and ['ExclusiveStartTableName'],
    each only when truthy, so an empty dict when neither is; it returns
    the decoded answer unchanged. *)
Theorem list_tables_request limit start_table :
  exists data,
    request_of (list_tables limit start_table) = Some ("ListTables", data)
    /\ (forall k v, In (k, v) data ->
          (k = "Limit" /\ v = limit /\ py_truthy limit = true)
          \/ (k = "ExclusiveStartTableName" /\ v = start_table
              /\ py_truthy start_table = true))
    /\ (py_truthy limit = false -> py_truthy start_table = false -> data = [])
    /\ forall result, respond result (list_tables limit start_table) = ORet result.
Proof.
  eexists. split; [reflexivity|]. split; [|split].
  - intros k v H. in_writes H. destruct H.
  - intros -> ->. reflexivity.
  - reflexivity.
Qed.

End Layer1TableClaims.
